(** * The statistics aggregator of the Amazon movie review dashboard

    A shallow embedding of [connect_mongodb] and [load_stats_from_mongodb]
    (amazon-movie-streamlit-dashboard.py, lines 131-211) together with the
    fragment of the MongoDB query language the two functions use, and the
    properties of the statistics bundle that follow from it. *)

From Stdlib Require Import Ascii ZArith QArith Floats Uint63.
From stdpp Require Import gmap strings list sorting pretty.

Local Open Scope Z_scope.

(** ** Documents

    A field of a document is an [option]: [None] stands for a field that is
    absent or holds BSON null.  Every operator used by the aggregator
    ([$group], [$avg], [$ne: None], [$lte], [$gt], sort) treats the two alike.
    Only the fields the queries read are kept. *)

Module Reviews.
(** [score] is a BSON double with an integral value (the dashboard looks the
    histogram up under the keys '1.0' .. '5.0'); [year] and [word_count]
    are integers; [helpful_ratio] is a ratio, kept exact. *)
Record t := mk {
  score : option Z;
  year : option Z;
  word_count : option Z;
  helpful_ratio : option Q
}.
End Reviews.

Module UserStats.
Record t := mk {
  _id : string;
  review_count : option Z
}.
End UserStats.

Module ProductStats.
Record t := mk {
  _id : string;
  review_count : option Z;
  avg_rating : option Q
}.
End ProductStats.

Record Database := {
  reviews : list Reviews.t;
  user_stats : list UserStats.t;
  product_stats : list ProductStats.t
}.


(** A database that was never written to has no documents. *)
Definition empty_database : Database :=
  {| reviews := []; user_stats := []; product_stats := [] |}.

(** ** The world the two functions run in

    [MongoClient(uri, ...)] does not connect: the driver connects when the
    first operation is issued.  A deployment that cannot be reached (or that
    refuses the credentials) therefore shows in the operations, each of which
    raises [unreachable], and not in [connect_mongodb]. *)

Record World := {
  environ : gmap string string;           (* os.environ *)
  dotenv : gmap string string;            (* the variables of the .env file *)
  import_error : option string;           (* an import of the try block raises *)
  client_error : string → option string;  (* MongoClient(uri, ...) raises *)
  name_error : string → option string;    (* client[name] raises *)
  unreachable : option string;            (* an operation on the deployment raises *)
  server : gmap string Database;          (* the deployment, by database name *)
  errors : list string                    (* what st.error has displayed *)
}.

(** What [connect_mongodb] returns: [client[name]]. *)
Record Handle := { db_name : string }.

Definition contents (w : World) (db : Handle) : Database :=
  default empty_database (server w !! db_name db).

(** State passing over the world. *)
Definition M (A : Type) : Type := World → A * World.

Global Instance M_ret : MRet M := λ A a w, (a, w).
Global Instance M_bind : MBind M :=
  λ A B k m w, let '(a, w') := m w in k a w'.

(** Calls that may raise outside a try block: [inl e] is the exception [e]
    leaving the function, [inr a] the value it returns. *)
Definition E (A : Type) : Type := World → (string + A) * World.

Global Instance E_ret : MRet E := λ A a w, (inr a, w).
Global Instance E_bind : MBind E :=
  λ A B k m w,
    match m w with
    | (inl e, w') => (inl e, w')
    | (inr a, w') => k a w'
    end.

(** A call that does not raise. *)
Definition returns {A} (m : M A) : E A :=
  λ w, let '(a, w') := m w in (inr a, w').

(** ** BSON order, Python truthiness and [str] *)

(** The sort order of BSON on a field that is null or a number: null first. *)
Definition bson_le (a b : option Z) : Prop :=
  match a, b with
  | None, _ => True
  | Some _, None => False
  | Some x, Some y => x ≤ y
  end.

Global Instance bson_le_dec a b : Decision (bson_le a b).
Proof. destruct a, b; simpl; apply _. Defined.

(** [if y['_id']]: None and 0 are falsy. *)
Definition truthy (v : option Z) : bool :=
  match v with
  | None => false
  | Some n => negb (n =? 0)
  end.

(** [not uri] on the result of os.environ.get: None and '' are falsy. *)
Definition truthy_str (v : option string) : bool :=
  match v with
  | None | Some "" => false
  | Some _ => true
  end%string.

(** [str] of an int, and of a double with an integral value (below 1e16 in
    magnitude Python prints its digits followed by '.0'). *)
Definition str_int (n : Z) : string := pretty n.
Definition str_float (n : Z) : string := pretty n +:+ ".0".

(** [str(r['_id'])] for an [_id] that is null or a number. *)
Definition str_id (str_num : Z → string) (v : option Z) : string :=
  match v with
  | None => "None"
  | Some n => str_num n
  end.

(** A dict comprehension: later items overwrite earlier ones. *)
Definition dict {V} (items : list (string * V)) : gmap string V :=
  foldl (λ d kv, <[kv.1 := kv.2]> d) ∅ items.

(** ** The query operators *)

(** [$group]: one output row per distinct [_id], carrying the accumulators
    over the documents of the group.  The order of the rows is not specified
    by the engine; every grouped pipeline below sorts them. *)
Definition group {D K A} `{EqDecision K}
    (key : D → K) (acc : list D → A) (docs : list D) : list (K * A) :=
  (λ k, (k, acc (filter (λ d, key d = k) docs))) <$> remove_dups (key <$> docs).

(** [{"$sort": {"_id": 1}}] *)
Definition sort_id {A} (rows : list (option Z * A)) : list (option Z * A) :=
  merge_sort (λ r1 r2, bson_le r1.1 r2.1) rows.

(** [{"$sum": 1}] *)
Definition sum1 {D} (g : list D) : Z := Z.of_nat (length g).

Definition Qsum (xs : list Q) : Q := foldr Qplus 0%Q xs.

(** [{"$avg": field}]: the mean of the values that are numbers; documents
    where the field is null or absent are ignored, and the result is null
    when no document of the group has a number there. *)
Definition avg {D} (field : D → option Q) (g : list D) : option Q :=
  match omap field g with
  | [] => None
  | x :: xs => Some (Qred (Qsum (x :: xs) / inject_Z (Z.of_nat (length (x :: xs)))))
  end.

Definition num (v : option Z) : option Q := inject_Z <$> v.

(** Query filters on [review_count]. *)
Definition lte (bound : Z) (v : option Z) : bool :=
  match v with Some n => n <=? bound | None => false end.
Definition gt (bound : Z) (v : option Z) : bool :=
  match v with Some n => bound <? n | None => false end.

(** An operation on the deployment: it raises when the deployment cannot be
    reached, and otherwise reads the database behind the handle.  None of
    the operations below writes. *)
Definition operation {A} (db : Handle) (read : Database → A) : E A :=
  λ w, (match unreachable w with
        | Some e => inl e
        | None => inr (read (contents w db))
        end, w).

(** [coll.count_documents(filter)] *)
Definition count_documents {D} (coll : Database → list D) (db : Handle)
    (flt : D → bool) : E Z :=
  operation db (λ d, Z.of_nat (length (filter (λ x, flt x = true) (coll d)))).

(** [list(coll.aggregate(pipeline))] *)
Definition aggregate {D R} (coll : Database → list D) (db : Handle)
    (pipeline : list D → list R) : E (list R) :=
  operation db (λ d, pipeline (coll d)).

(** [list(coll.find().sort(field, -1).limit(n))].  The engine does not say
    in which order documents with equal keys come; here they come as the
    scan finds them, so the result depends on the order of the list. *)
Definition find_sort_desc_limit {D} (coll : Database → list D) (db : Handle)
    (field : D → option Z) (n : nat) : E (list D) :=
  operation db (λ d, take n (merge_sort (λ d1 d2, bson_le (field d2) (field d1))
                               (coll d))).

(** ** [connect_mongodb]

    The two functions are decorated with streamlit caches; their bodies are
    what is modelled here, a cached call returning the value of the run
    that filled the cache. *)

Definition st_error (msg : string) : M unit :=
  λ w, (tt, {| environ := environ w; dotenv := dotenv w;
               import_error := import_error w; client_error := client_error w;
               name_error := name_error w; unreachable := unreachable w;
               server := server w; errors := errors w ++ [msg] |}).

(** [load_dotenv()]: variables of the .env file are added to the
    environment; a variable already set keeps its value. *)
Definition load_dotenv : M unit :=
  λ w, (tt, {| environ := environ w ∪ dotenv w; dotenv := dotenv w;
               import_error := import_error w; client_error := client_error w;
               name_error := name_error w; unreachable := unreachable w;
               server := server w; errors := errors w |}).

Definition environ_get (key : string) : M (option string) :=
  λ w, (environ w !! key, w).

(** The three imports of the try block. *)
Definition imports : M (string + unit) :=
  λ w, (match import_error w with Some e => inl e | None => inr tt end, w).

(** [MongoClient(uri, tlsCAFile=certifi.where())] *)
Definition MongoClient (uri : string) : M (string + unit) :=
  λ w, (match client_error w uri with Some e => inl e | None => inr tt end, w).

(** [client[name]]: the driver rejects some names, the empty one among them. *)
Definition client_getitem (name : string) : M (string + Handle) :=
  λ w, (match name_error w name with
        | Some e => inl e
        | None => inr {| db_name := name |}
        end, w).

(** The body of the try block: [inl e] when it raises [e]. *)
Definition connect_mongodb_try : M (string + option Handle) :=
  i ← imports;
  match i with
  | inl e => mret (inl e)
  | inr _ =>
    load_dotenv;;
    uri ← environ_get "MONGODB_URI";
    if negb (truthy_str uri) then mret (inr None)
    else
      c ← MongoClient (default "" uri);
      match c with
      | inl e => mret (inl e)
      | inr _ =>
        name ← environ_get "MONGODB_DATABASE";
        db ← client_getitem (default "amazon_movies" name);
        match db with
        | inl e => mret (inl e)
        | inr db => mret (inr (Some db))
        end
      end
  end.

Definition connect_mongodb : M (option Handle) :=
  r ← connect_mongodb_try;
  match r with
  | inr db => mret db
  | inl e => st_error ("MongoDB connection failed: " +:+ e);; mret None
  end.

(** ** [load_stats_from_mongodb] *)

(** The value of [yearly_data] under a year. *)
Module Yearly.
Record t := mk { count : Z; avg_rating : option Q }.
End Yearly.

(** Python's [v / total_reviews * 100] on ints: a binary64 division and
    multiplication (exact conversions for counts below 2^53). *)
Definition float_of_int (n : Z) : float := PrimFloat.of_uint63 (Uint63.of_Z n).
Definition percentage (v total : Z) : float :=
  (float_of_int v / float_of_int total * float_of_int 100)%float.

Record Stats := {
  total_reviews : Z;
  unique_users : Z;
  unique_products : Z;
  avg_rating : option Q;
  avg_word_count : option Q;
  rating_counts : gmap string Z;
  rating_percentages : gmap string float;
  yearly_data : gmap string Yearly.t;
  user_segments : gmap string Z;
  power_users : Z;
  word_count_by_rating : gmap string (option Q);
  helpful_by_rating : gmap string (option Q);
  top_products : list ProductStats.t;
  source : string
}.

(** The five aggregation pipelines, in the order the function issues them. *)
Definition rating_pipeline (docs : list Reviews.t) : list (option Z * Z) :=
  sort_id (group Reviews.score sum1 docs).

Definition yearly_pipeline (docs : list Reviews.t) : list (option Z * Yearly.t) :=
  sort_id (group Reviews.year
    (λ g, {| Yearly.count := sum1 g;
             Yearly.avg_rating := avg (λ d, num (Reviews.score d)) g |}) docs).

Definition avg_pipeline (docs : list Reviews.t) : list (unit * (option Q * option Q)) :=
  group (λ _, tt)
    (λ g, (avg (λ d, num (Reviews.score d)) g,
           avg (λ d, num (Reviews.word_count d)) g)) docs.

Definition wc_pipeline (docs : list Reviews.t) : list (option Z * option Q) :=
  sort_id (group Reviews.score (avg (λ d, num (Reviews.word_count d))) docs).

Definition help_pipeline (docs : list Reviews.t) : list (option Z * option Q) :=
  sort_id (group Reviews.score (avg Reviews.helpful_ratio)
    (filter (λ d, Reviews.helpful_ratio d ≠ None) docs)).

(** [{str(r['_id']): r[...] for r in rows}] *)
Definition by_id {V} (str_num : Z → string) (rows : list (option Z * V))
    : list (string * V) :=
  (λ r, (str_id str_num r.1, r.2)) <$> rows.

Definition load_stats_from_mongodb : E (option Stats) :=
  db ← returns connect_mongodb;
  match db with
  | None => mret None
  | Some db =>
    total_reviews ← count_documents reviews db (λ _, true);
    unique_users ← count_documents user_stats db (λ _, true);
    unique_products ← count_documents product_stats db (λ _, true);
    rating_results ← aggregate reviews db rating_pipeline;
    let rating_counts := dict (by_id str_float rating_results) in
    yearly_results ← aggregate reviews db yearly_pipeline;
    let yearly_data :=
      dict (by_id str_int (filter (λ y, truthy y.1 = true) yearly_results)) in
    casual ← count_documents user_stats db (λ u, lte 5 (UserStats.review_count u));
    regular ← count_documents user_stats db
      (λ u, gt 5 (UserStats.review_count u) && lte 50 (UserStats.review_count u));
    power ← count_documents user_stats db (λ u, gt 50 (UserStats.review_count u));
    top_products ← find_sort_desc_limit product_stats db ProductStats.review_count 15;
    avg_result ← aggregate reviews db avg_pipeline;
    wc_results ← aggregate reviews db wc_pipeline;
    let word_count_by_rating := dict (by_id str_float wc_results) in
    help_results ← aggregate reviews db help_pipeline;
    let helpful_by_rating := dict (by_id str_float help_results) in
    mret (Some {|
      total_reviews := total_reviews;
      unique_users := unique_users;
      unique_products := unique_products;
      avg_rating := match avg_result with r :: _ => r.2.1 | [] => Some 0%Q end;
      avg_word_count := match avg_result with r :: _ => r.2.2 | [] => Some 0%Q end;
      rating_counts := rating_counts;
      rating_percentages :=
        if 0 <? total_reviews
        then (λ v, percentage v total_reviews) <$> rating_counts
        else ∅;
      yearly_data := yearly_data;
      user_segments := {[ "casual" := casual; "regular" := regular; "power" := power ]};
      power_users := power;
      word_count_by_rating := word_count_by_rating;
      helpful_by_rating := helpful_by_rating;
      top_products := top_products;
      source := "MongoDB (150K Sample)"
    |})
  end.

(** The database the aggregator reads: the contents behind the handle that
    [connect_mongodb] returns, if it returns one and the deployment can be
    reached. *)
Definition store (w : World) : option Database :=
  let '(db, w') := connect_mongodb w in
  match unreachable w' with
  | Some _ => None
  | None => contents w' <$> db
  end.

(** ** Notions used to state the properties *)

Definition Zsum (xs : list Z) : Z := foldr Z.add 0 xs.

(** [sum(d.values())] *)
Definition dict_sum (d : gmap string Z) : Z := Zsum (map_to_list d).*2.

(** The mean of a list of numbers; there is none for the empty list. *)
Definition mean (xs : list Q) : option Q :=
  match xs with
  | [] => None
  | _ :: _ => Some (Qred (Qsum xs / inject_Z (Z.of_nat (length xs))))
  end.

(** The reviews of one score group, and the values present in a field. *)
Definition with_score (s : option Z) (docs : list Reviews.t) : list Reviews.t :=
  filter (λ r, Reviews.score r = s) docs.

Definition present {D} (field : D → option Q) (docs : list D) : list Q :=
  omap field docs.

(** The user segments by review count: at most 5, 6 to 50, above 50. *)
Inductive segment := Casual | Regular | Power.

Global Instance segment_eq_dec : EqDecision segment.
Proof. solve_decision. Defined.

Definition segment_of (n : Z) : segment :=
  if n <=? 5 then Casual else if n <=? 50 then Regular else Power.

Definition rows_in (s : segment) (rows : list UserStats.t) : Z :=
  Z.of_nat (length (filter
    (λ u, segment_of <$> UserStats.review_count u = Some s) rows)).

(** Descending BSON order of [review_count]. *)
Definition review_count_desc (p1 p2 : ProductStats.t) : Prop :=
  bson_le (ProductStats.review_count p2) (ProductStats.review_count p1).

Global Instance review_count_desc_dec p1 p2 : Decision (review_count_desc p1 p2).
Proof. unfold review_count_desc. apply _. Defined.


(** The handle is unavailable: a package of the try block cannot be imported,
    no URI is configured (in the environment or the .env file), the client
    cannot be constructed from it, or the database name is rejected. *)
Definition unavailable (w : World) : Prop :=
  is_Some (import_error w) ∨
  truthy_str ((environ w ∪ dotenv w) !! "MONGODB_URI") = false ∨
  (∃ uri, (environ w ∪ dotenv w) !! "MONGODB_URI" = Some uri ∧
          is_Some (client_error w uri)) ∨
  is_Some (name_error w
    (default "amazon_movies" ((environ w ∪ dotenv w) !! "MONGODB_DATABASE"))).

(** The exception the try block of [connect_mongodb] ends with, if it ends
    with one: that of the first step that raises.  Without a URI the block
    returns before the client is constructed. *)
Definition try_raises (w : World) : option string :=
  match import_error w with
  | Some e => Some e
  | None =>
    match (environ w ∪ dotenv w) !! "MONGODB_URI" with
    | Some uri =>
      if truthy_str (Some uri) then
        match client_error w uri with
        | Some e => Some e
        | None =>
          name_error w
            (default "amazon_movies" ((environ w ∪ dotenv w) !! "MONGODB_DATABASE"))
        end
      else None
    | None => None
    end
  end.

(** ** Sample stores *)

(** A world whose .env file names a deployment that holds [d] as its
    default database. *)
Definition world_of (d : Database) : World :=
  {| environ := ∅;
     dotenv := {[ "MONGODB_URI" := "mongodb://localhost:27017" ]};
     import_error := None;
     client_error := λ _, None;
     name_error := λ _, None;
     unreachable := None;
     server := {[ "amazon_movies" := d ]};
     errors := [] |}.

(** A world in which the driver is not installed. *)
Definition world_without_driver : World :=
  {| environ := ∅;
     dotenv := {[ "MONGODB_URI" := "mongodb://localhost:27017" ]};
     import_error := Some "No module named 'pymongo'";
     client_error := λ _, None; name_error := λ _, None;
     unreachable := None; server := ∅; errors := [] |}.

(** A world with no URI configured. *)
Definition world_without_uri : World :=
  {| environ := ∅; dotenv := ∅; import_error := None;
     client_error := λ _, None; name_error := λ _, None;
     unreachable := None; server := ∅; errors := [] |}.

Definition sample_reviews : list Reviews.t :=
  [ Reviews.mk (Some 1) (Some 2000) (Some 10) None;
    Reviews.mk (Some 1) (Some 2001) None (Some (1 # 2));
    Reviews.mk (Some 5) (Some 2000) (Some 4) (Some (1 # 4));
    Reviews.mk (Some 5) (Some 2001) (Some 2) None;
    Reviews.mk None (Some 2001) (Some 6) None ].

Definition sample_database : Database :=
  {| reviews := sample_reviews;
     user_stats :=
       [ UserStats.mk "A1" (Some 3); UserStats.mk "A2" (Some 50);
         UserStats.mk "A3" (Some 51); UserStats.mk "A4" (Some 0) ];
     product_stats :=
       [ ProductStats.mk "B1" (Some 3) (Some (9 # 2));
         ProductStats.mk "B2" (Some 7) (Some (4 # 1));
         ProductStats.mk "B3" None None ] |}.

(** A world whose .env file names a deployment that cannot be reached. *)
Definition world_unreachable : World :=
  {| environ := ∅;
     dotenv := {[ "MONGODB_URI" := "mongodb://localhost:27017" ]};
     import_error := None;
     client_error := λ _, None;
     name_error := λ _, None;
     unreachable := Some "localhost:27017: [Errno 111] Connection refused";
     server := {[ "amazon_movies" := sample_database ]};
     errors := [] |}.




(** Two reviews, one of them dated year 0. *)
Definition year_zero_database : Database :=
  {| reviews :=
       [ Reviews.mk (Some 4) (Some 0) (Some 12) None;
         Reviews.mk (Some 5) (Some 2000) (Some 3) None ];
     user_stats := []; product_stats := [] |}.

(** No reviews, but a product summary row. *)
Definition no_reviews_database : Database :=
  {| reviews := [];
     user_stats := [];
     product_stats := [ ProductStats.mk "B1" (Some 3) (Some (9 # 2)) ] |}.

(** ** [main]: what the dashboard reads from the bundle

    Of [main] the statements that compute with the bundle are modelled, tab
    by tab; layout, styling and static text are left out. *)

(** Loading the data (lines 239-243): without a bundle [main] shows an error
    and returns.  The call is not in a try block: an exception of the
    aggregator leaves [main] as well. *)
Definition main_load : E (option Stats) :=
  stats ← load_stats_from_mongodb;
  match stats with
  | None =>
    returns (st_error "❌ Could not connect to MongoDB. Check your .env file.");;
    mret None
  | Some stats => mret (Some stats)
  end.

(** [d.get(k, default)] *)
Definition dict_get {V} (d : gmap string V) (k : string) (dflt : V) : V :=
  default dflt (d !! k).

(** [int(s)] on a string of ASCII digits with an optional sign; [None] is
    ValueError.  The other forms [int] accepts (surrounding whitespace,
    underscores between digits, digits outside ASCII) are not modelled:
    [str] of an int never produces them. *)
Definition digit (c : ascii) : option Z :=
  let code := Z.of_N (N_of_ascii c) in
  if (48 <=? code) && (code <=? 57) then Some (code - 48) else None.

Fixpoint int_digits (acc : Z) (s : string) : option Z :=
  match s with
  | EmptyString => Some acc
  | String c s => d ← digit c; int_digits (10 * acc + d) s
  end.

Definition int_of_str (s : string) : option Z :=
  match s with
  | EmptyString => None
  | String "-" EmptyString | String "+" EmptyString => None
  | String "-" s => Z.opp <$> int_digits 0 s
  | String "+" s => int_digits 0 s
  | _ => int_digits 0 s
  end%char.

(** Tab 1 (lines 545-547).  The keys are taken in the order of the map, not
    in Python's insertion order; [sorted] makes the result the same. *)
Module Trends.
Definition years (stats : Stats) : option (list Z) :=
  ys ← mapM int_of_str (map_to_list (yearly_data stats)).*1;
  mret (merge_sort Z.le (filter (λ y, 1997 ≤ y) ys)).

(** [None] is KeyError. *)
Definition counts (stats : Stats) (years : list Z) : option (list Z) :=
  mapM (λ y, Yearly.count <$> yearly_data stats !! str_int y) years.

Definition avg_ratings (stats : Stats) (years : list Z) : option (list (option Q)) :=
  mapM (λ y, Yearly.avg_rating <$> yearly_data stats !! str_int y) years.
End Trends.

(** Tabs 2 to 4 (lines 588-589, 634-635, 668-669). *)
Definition ratings : list string := ["1.0"; "2.0"; "3.0"; "4.0"; "5.0"].

Module Ratings.
Definition counts (stats : Stats) : list Z :=
  (λ r, dict_get (rating_counts stats) r 0) <$> ratings.
End Ratings.

Definition helpful_vals (stats : Stats) : list (option Q) :=
  (λ r, dict_get (helpful_by_rating stats) r (Some 0%Q)) <$> ratings.

Definition word_counts (stats : Stats) : list (option Q) :=
  (λ r, dict_get (word_count_by_rating stats) r (Some 0%Q)) <$> ratings.

(** Tab 5 (lines 711-712). *)
Definition total_users (stats : Stats) : Z :=
  let segments := user_segments stats in
  if 0 <? dict_sum segments then dict_sum segments else 1.

(** Tab 6 (lines 762-763): [p['_id'][:15] + '...']. *)
Definition product_ids (stats : Stats) : list string :=
  (λ p, String.substring 0 15 (ProductStats._id p) +:+ "...") <$> top_products stats.

(** The reviews of one year, and the scores the histogram has a bar for. *)
Definition with_year (y : Z) (docs : list Reviews.t) : list Reviews.t :=
  filter (λ r, Reviews.year r = Some y) docs.

Definition is_star (s : option Z) : bool :=
  match s with
  | Some n => (1 <=? n) && (n <=? 5)
  | None => false
  end.

(** A world whose environment names a database that the deployment does not
    have. *)
Definition world_misnamed : World :=
  {| environ := {[ "MONGODB_URI" := "mongodb://localhost:27017";
                   "MONGODB_DATABASE" := "movies" ]};
     dotenv := ∅;
     import_error := None;
     client_error := λ _, None;
     name_error := λ _, None;
     unreachable := None;
     server := {[ "amazon_movies" := sample_database ]};
     errors := [] |}.

(** * Properties *)

(** ** Running the aggregator *)

Lemma filter_all {D} (l : list D) : filter (λ _ : D, true = true) l = l.
Proof.
  induction l as [|x l IH]; [done|].
  rewrite filter_cons_True by done. by rewrite IH.
Qed.

Lemma store_connect w d :
  store w = Some d →
  ∃ db w', connect_mongodb w = (Some db, w') ∧ unreachable w' = None ∧
           d = contents w' db.
Proof.
  unfold store. destruct (connect_mongodb w) as [[db|] w']; simpl;
    destruct (unreachable w') eqn:Hu; try done.
  intros [= <-]. by exists db, w'.
Qed.

Lemma store_None w :
  store w = None ↔
  (connect_mongodb w).1 = None ∨ is_Some (unreachable (connect_mongodb w).2).
Proof.
  unfold store. destruct (connect_mongodb w) as [[db|] w']; simpl;
    destruct (unreachable w') eqn:Hu; simpl; split; intros H; try done; eauto;
    destruct H as [[=]|[? [=]]].
Qed.

(** Unfolds one run of the aggregator on a world whose store is [d],
    leaving the bundle as an explicit record. *)
Ltac load_stats_run Hd Hb :=
  let Hu := fresh "Hu" in
  apply store_connect in Hd as (?db & ?w' & Hd & Hu & ->);
  unfold load_stats_from_mongodb in Hb;
  cbv [mbind E_bind returns] in Hb; rewrite Hd in Hb;
  cbv [mret E_ret count_documents aggregate find_sort_desc_limit operation] in Hb;
  rewrite Hu in Hb;
  cbv beta iota zeta in Hb; cbn [fst] in Hb;
  injection Hb as <-; cbn [total_reviews unique_users unique_products avg_rating
    avg_word_count rating_counts rating_percentages yearly_data user_segments
    power_users word_count_by_rating helpful_by_rating top_products source];
  rewrite ?filter_all.

Section fields.
Variables (w : World) (d : Database) (b : Stats).
Hypothesis Hd : store w = Some d.
Hypothesis Hb : (load_stats_from_mongodb w).1 = inr (Some b).

Lemma load_total_reviews : total_reviews b = Z.of_nat (length (reviews d)).
Proof using Hd Hb. by load_stats_run Hd Hb. Qed.

Lemma load_unique_users : unique_users b = Z.of_nat (length (user_stats d)).
Proof using Hd Hb. by load_stats_run Hd Hb. Qed.

Lemma load_unique_products :
  unique_products b = Z.of_nat (length (product_stats d)).
Proof using Hd Hb. by load_stats_run Hd Hb. Qed.

Lemma load_rating_counts :
  rating_counts b = dict (by_id str_float (rating_pipeline (reviews d))).
Proof using Hd Hb. by load_stats_run Hd Hb. Qed.

Lemma load_rating_percentages :
  rating_percentages b =
    if 0 <? total_reviews b
    then (λ v, percentage v (total_reviews b)) <$> rating_counts b
    else ∅.
Proof using Hd Hb. by load_stats_run Hd Hb. Qed.

Lemma load_yearly_data :
  yearly_data b =
    dict (by_id str_int
      (filter (λ y, truthy y.1 = true) (yearly_pipeline (reviews d)))).
Proof using Hd Hb. by load_stats_run Hd Hb. Qed.

Lemma load_user_segments :
  user_segments b =
    {[ "casual" := Z.of_nat (length (filter
         (λ u, lte 5 (UserStats.review_count u) = true) (user_stats d)));
       "regular" := Z.of_nat (length (filter
         (λ u, gt 5 (UserStats.review_count u)
               && lte 50 (UserStats.review_count u) = true) (user_stats d)));
       "power" := Z.of_nat (length (filter
         (λ u, gt 50 (UserStats.review_count u) = true) (user_stats d))) ]}.
Proof using Hd Hb. by load_stats_run Hd Hb. Qed.

Lemma load_power_users :
  power_users b = Z.of_nat (length (filter
    (λ u, gt 50 (UserStats.review_count u) = true) (user_stats d))).
Proof using Hd Hb. by load_stats_run Hd Hb. Qed.

Lemma load_top_products :
  top_products b =
    take 15 (merge_sort review_count_desc (product_stats d)).
Proof using Hd Hb. by load_stats_run Hd Hb. Qed.

Lemma load_avg_rating :
  avg_rating b =
    match avg_pipeline (reviews d) with r :: _ => r.2.1 | [] => Some 0%Q end.
Proof using Hd Hb. by load_stats_run Hd Hb. Qed.

Lemma load_avg_word_count :
  avg_word_count b =
    match avg_pipeline (reviews d) with r :: _ => r.2.2 | [] => Some 0%Q end.
Proof using Hd Hb. by load_stats_run Hd Hb. Qed.

Lemma load_word_count_by_rating :
  word_count_by_rating b = dict (by_id str_float (wc_pipeline (reviews d))).
Proof using Hd Hb. by load_stats_run Hd Hb. Qed.

Lemma load_helpful_by_rating :
  helpful_by_rating b = dict (by_id str_float (help_pipeline (reviews d))).
Proof using Hd Hb. by load_stats_run Hd Hb. Qed.

Lemma load_source : source b = "MongoDB (150K Sample)".
Proof using Hd Hb. by load_stats_run Hd Hb. Qed.
End fields.

(** With a store behind the handle the aggregator returns a bundle. *)
Lemma load_stats_returns w d :
  store w = Some d → ∃ b, (load_stats_from_mongodb w).1 = inr (Some b).
Proof.
  intros (db & w' & Hd & Hu & ->)%store_connect.
  unfold load_stats_from_mongodb. cbv [mbind E_bind returns]. rewrite Hd.
  cbv [mret E_ret count_documents aggregate find_sort_desc_limit operation].
  rewrite Hu. cbv beta iota zeta. cbn [fst]. eauto.
Qed.

(** ** Dictionaries built by a comprehension *)

Lemma dict_snoc {V} (items : list (string * V)) k v :
  dict (items ++ [(k, v)]) = <[k := v]> (dict items).
Proof. unfold dict. by rewrite foldl_app. Qed.

Lemma dict_list_to_map {V} (items : list (string * V)) :
  dict items = list_to_map (reverse items).
Proof.
  induction items as [|[k v] items IH] using rev_ind; [done|].
  by rewrite dict_snoc, reverse_snoc, list_to_map_cons, IH.
Qed.

Lemma dict_lookup_None {V} (items : list (string * V)) k :
  dict items !! k = None ↔ k ∉ items.*1.
Proof.
  rewrite dict_list_to_map, <-not_elem_of_list_to_map.
  by rewrite fmap_reverse, elem_of_reverse.
Qed.

Lemma dict_lookup_Some {V} (items : list (string * V)) k v :
  NoDup items.*1 → dict items !! k = Some v ↔ (k, v) ∈ items.
Proof.
  intros Hnd. rewrite dict_list_to_map, <-elem_of_list_to_map.
  - by rewrite elem_of_reverse.
  - by rewrite fmap_reverse, reverse_Permutation.
Qed.

Lemma dict_to_list {V} (items : list (string * V)) :
  NoDup items.*1 → map_to_list (dict items) ≡ₚ items.
Proof.
  intros Hnd. rewrite dict_list_to_map, map_to_list_to_map.
  - apply reverse_Permutation.
  - by rewrite fmap_reverse, reverse_Permutation.
Qed.

(** ** [str] is injective on the ids of a group *)

Lemma pretty_N_go_ne_N x s s' :
  s ≠ String "N"%char s' → pretty_N_go x s ≠ String "N"%char s'.
Proof.
  revert s. induction (N.lt_wf_0 x) as [x _ IH]; intros s Hs.
  destruct (decide (x = 0)%N) as [->|Hx]; [by rewrite pretty_N_go_0|].
  rewrite pretty_N_go_step by lia. apply IH.
  - apply N.div_lt; lia.
  - unfold pretty_N_char. by repeat case_match.
Qed.

Lemma str_int_ne_None n s' : str_int n ≠ String "N"%char s'.
Proof.
  unfold str_int, pretty, pretty_Z, pretty, pretty_positive, pretty, pretty_N.
  destruct n as [|p|p]; [done| |done].
  case_decide; [done|]. by apply pretty_N_go_ne_N.
Qed.

Lemma string_length_app (s t : string) :
  String.length (s +:+ t) = (String.length s + String.length t)%nat.
Proof. induction s as [|c s IH]; simpl; [done|]. by rewrite IH. Qed.

Lemma string_app_inv_tail (s1 s2 t : string) :
  s1 +:+ t = s2 +:+ t → s1 = s2.
Proof.
  intros Heq.
  assert (String.length s1 = String.length s2) as Hlen.
  { apply (f_equal String.length) in Heq.
    rewrite !string_length_app in Heq. lia. }
  revert s2 Heq Hlen.
  induction s1 as [|c s1 IH]; intros [|c' s2] Heq Hlen; simplify_eq/=; [done|].
  f_equal. by apply IH.
Qed.

Global Instance str_int_inj : Inj (=) (=) str_int.
Proof. unfold str_int. apply _. Qed.

Global Instance str_float_inj : Inj (=) (=) str_float.
Proof.
  intros n m Hnm. unfold str_float in Hnm.
  by apply string_app_inv_tail, (inj pretty) in Hnm.
Qed.

Lemma str_float_ne_None n : str_float n ≠ "None".
Proof.
  unfold str_float. intros Heq.
  destruct (pretty n) as [|c s] eqn:Hp; [done|].
  simpl in Heq. injection Heq as -> _.
  by apply (str_int_ne_None n s).
Qed.

Lemma str_id_inj (str_num : Z → string) :
  Inj (=) (=) str_num → (∀ n, str_num n ≠ "None") → Inj (=) (=) (str_id str_num).
Proof.
  intros Hinj Hne [x|] [y|] Heq; simpl in Heq; try done.
  - by rewrite (Hinj _ _ Heq).
  - by apply Hne in Heq.
  - symmetry in Heq. by apply Hne in Heq.
Qed.

Global Instance str_id_int_inj : Inj (=) (=) (str_id str_int).
Proof. apply str_id_inj; [apply _|]. intros n. apply str_int_ne_None. Qed.

Global Instance str_id_float_inj : Inj (=) (=) (str_id str_float).
Proof. apply str_id_inj; [apply _|]. apply str_float_ne_None. Qed.

(** ** [$group] and [$sort] *)

Section group_facts.
Context {D K A : Type} `{EqDecision K} (key : D → K) (acc : list D → A).

Lemma group_nil : group key acc [] = [].
Proof. done. Qed.

Lemma group_ids docs : (group key acc docs).*1 = remove_dups (key <$> docs).
Proof.
  unfold group. generalize (remove_dups (key <$> docs)). intros ks.
  induction ks as [|k ks IH]; [done|]. simpl. by f_equal.
Qed.

Lemma NoDup_group_ids docs : NoDup (group key acc docs).*1.
Proof. rewrite group_ids. apply NoDup_remove_dups. Qed.

Lemma elem_of_group docs k a :
  (k, a) ∈ group key acc docs ↔
  (∃ x, x ∈ docs ∧ key x = k) ∧ a = acc (filter (λ x, key x = k) docs).
Proof.
  unfold group. rewrite list_elem_of_fmap. setoid_rewrite elem_of_remove_dups.
  setoid_rewrite list_elem_of_fmap. split.
  - intros (k' & [= -> ->] & x & -> & Hx). eauto.
  - intros [(x & Hx & <-) ->]. eauto.
Qed.
End group_facts.

Lemma sort_id_Permutation {A} (rows : list (option Z * A)) : sort_id rows ≡ₚ rows.
Proof. apply merge_sort_Permutation. Qed.

Lemma by_id_keys {V} str_num (rows : list (option Z * V)) :
  (by_id str_num rows).*1 = str_id str_num <$> rows.*1.
Proof. unfold by_id. by rewrite <-!list_fmap_compose. Qed.

Lemma by_id_values {V} str_num (rows : list (option Z * V)) :
  (by_id str_num rows).*2 = rows.*2.
Proof. unfold by_id. by rewrite <-!list_fmap_compose. Qed.

Lemma NoDup_by_id {V} str_num `{!Inj (=) (=) (str_id str_num)}
    (rows : list (option Z * V)) :
  NoDup rows.*1 → NoDup (by_id str_num rows).*1.
Proof. intros Hnd. rewrite by_id_keys. by apply (NoDup_fmap_2 _). Qed.

(** Looking the dict of a grouped result up under [str] of an id. *)
Lemma dict_by_id_lookup {V} str_num `{!Inj (=) (=) (str_id str_num)}
    (rows : list (option Z * V)) s v :
  NoDup rows.*1 →
  dict (by_id str_num rows) !! s = Some v ↔
  ∃ k, s = str_id str_num k ∧ (k, v) ∈ rows.
Proof.
  intros Hnd. rewrite dict_lookup_Some by by apply NoDup_by_id.
  unfold by_id. rewrite list_elem_of_fmap. split.
  - intros ([k v'] & [= -> ->] & Hin). eauto.
  - intros (k & -> & Hin). by exists (k, v).
Qed.

(** The dict of a sorted grouped pipeline, at the key of a group. *)
Lemma dict_grouped_lookup {D A} str_num `{!Inj (=) (=) (str_id str_num)}
    (key : D → option Z) (acc : list D → A) docs s v :
  dict (by_id str_num (sort_id (group key acc docs))) !! s = Some v ↔
  ∃ k, s = str_id str_num k ∧ (∃ x, x ∈ docs ∧ key x = k) ∧
       v = acc (filter (λ x, key x = k) docs).
Proof.
  assert (NoDup (sort_id (group key acc docs)).*1) as Hnd.
  { rewrite sort_id_Permutation. apply NoDup_group_ids. }
  rewrite (dict_by_id_lookup _ _ _ _ Hnd).
  setoid_rewrite sort_id_Permutation. by setoid_rewrite elem_of_group.
Qed.

(** ** The connection *)

Lemma connect_mongodb_result w :
  (connect_mongodb w).1 =
    match import_error w with
    | Some _ => None
    | None =>
      let uri := (environ w ∪ dotenv w) !! "MONGODB_URI" in
      if truthy_str uri then
        match client_error w (default "" uri) with
        | Some _ => None
        | None =>
          let name :=
            default "amazon_movies" ((environ w ∪ dotenv w) !! "MONGODB_DATABASE") in
          match name_error w name with
          | Some _ => None
          | None => Some {| db_name := name |}
          end
        end
      else None
    end.
Proof.
  unfold connect_mongodb, connect_mongodb_try, imports, load_dotenv,
    environ_get, MongoClient, client_getitem, st_error.
  cbv [mbind M_bind mret M_ret].
  destruct (import_error w) as [e|]; [done|]. cbn.
  destruct (truthy_str _); [|done]. cbn.
  destruct (client_error w _); [done|]. cbn.
  by destruct (name_error w _).
Qed.

Lemma connect_mongodb_world w :
  let w' := (connect_mongodb w).2 in
  server w' = server w ∧ dotenv w' = dotenv w ∧
  import_error w' = import_error w ∧ client_error w' = client_error w ∧
  name_error w' = name_error w ∧
  environ w' ∪ dotenv w' = environ w ∪ dotenv w ∧
  unreachable w' = unreachable w.
Proof.
  unfold connect_mongodb, connect_mongodb_try, imports, load_dotenv,
    environ_get, MongoClient, client_getitem, st_error.
  cbv [mbind M_bind mret M_ret].
  destruct (import_error w) as [e|] eqn:He; [done|]. cbn.
  assert (environ w ∪ dotenv w ∪ dotenv w = environ w ∪ dotenv w) as Hidem.
  { by rewrite <-(assoc_L (∪)), (idemp_L (∪)). }
  destruct (truthy_str _); [|done]. cbn.
  destruct (client_error w _); [done|]. cbn.
  by destruct (name_error w _).
Qed.

Lemma connect_mongodb_None w :
  (connect_mongodb w).1 = None ↔ unavailable w.
Proof.
  rewrite connect_mongodb_result. unfold unavailable.
  destruct (import_error w) as [e|]; [by intuition eauto|]. cbn zeta.
  destruct ((environ w ∪ dotenv w) !! "MONGODB_URI") as [uri|] eqn:Huri;
    [|by intuition eauto].
  destruct (truthy_str (Some uri)) eqn:Ht; [|by intuition eauto]. simpl.
  destruct (client_error w uri) as [e|] eqn:Hc.
  { split; [|done]. intros _. right; right; left. exists uri. by rewrite Hc. }
  destruct (name_error w _) as [e|] eqn:Hn.
  - split; [|done]. intros _. by do 3 right.
  - split; [done|].
    intros [[? [=]]|[[=]|[(uri' & [= <-] & [? Hc'])|[? [=]]]]]. congruence.
Qed.

Lemma load_stats_world w :
  (load_stats_from_mongodb w).2 = (connect_mongodb w).2.
Proof.
  unfold load_stats_from_mongodb. cbv [mbind E_bind returns].
  destruct (connect_mongodb w) as [[db|] w']; [|done].
  cbv [mret E_ret count_documents aggregate find_sort_desc_limit operation].
  by destruct (unreachable w').
Qed.

(** A bundle is returned only when there is a store to read. *)
Lemma load_stats_Some_store w b :
  (load_stats_from_mongodb w).1 = inr (Some b) → ∃ d, store w = Some d.
Proof.
  intros Hb. unfold store.
  unfold load_stats_from_mongodb in Hb. cbv [mbind E_bind returns] in Hb.
  destruct (connect_mongodb w) as [[db|] w']; [|done].
  cbv [count_documents operation] in Hb.
  destruct (unreachable w') as [e|]; [done|]. simpl. eauto.
Qed.

(** Without a handle the aggregator returns None. *)
Lemma load_stats_not_available w :
  unavailable w → (load_stats_from_mongodb w).1 = inr None.
Proof.
  intros Hu%connect_mongodb_None.
  unfold load_stats_from_mongodb. cbv [mbind E_bind returns].
  destruct (connect_mongodb w) as [[db|] w']; simpl in *; [done|done].
Qed.

(** With a handle, and a deployment that cannot be reached, the first
    operation raises and nothing catches it. *)
Lemma load_stats_raises w db e :
  (connect_mongodb w).1 = Some db → unreachable w = Some e →
  (load_stats_from_mongodb w).1 = inl e.
Proof.
  intros Hc Hu.
  destruct (connect_mongodb_world w) as (_ & _ & _ & _ & _ & _ & Hu').
  unfold load_stats_from_mongodb. cbv [mbind E_bind returns].
  destruct (connect_mongodb w) as [o w']; simpl in *. subst o.
  cbv [count_documents operation]. by rewrite Hu', Hu.
Qed.

(** C5 fails where the connection cannot be established: the client is
    constructed without connecting, [connect_mongodb] returns a handle and
    reports nothing, and the first query of [load_stats_from_mongodb]
    (line 155), which no try block encloses, raises; the function does not
    return None. *)
Theorem load_stats_unreachable_raises :
  (connect_mongodb world_unreachable).1 = Some {| db_name := "amazon_movies" |} ∧
  errors (connect_mongodb world_unreachable).2 = [] ∧
  (load_stats_from_mongodb world_unreachable).1 =
    inl "localhost:27017: [Errno 111] Connection refused" ∧
  (load_stats_from_mongodb world_unreachable).1 ≠ inr None.
Proof.
  assert ((connect_mongodb world_unreachable).1 =
          Some {| db_name := "amazon_movies" |}) as Hc by reflexivity.
  split; [exact Hc|]. split; [reflexivity|].
  rewrite (load_stats_raises _ _ "localhost:27017: [Errno 111] Connection refused" Hc)
    by reflexivity.
  by split.
Qed.

(** C10: every bundle has a field [power_users] equal to
    [user_segments['power']] and a field [source] equal to
    'MongoDB (150K Sample)'. *)
Theorem power_users_and_source w b :
  (load_stats_from_mongodb w).1 = inr (Some b) →
  user_segments b !! "power" = Some (power_users b) ∧
  source b = "MongoDB (150K Sample)".
Proof.
  intros Hb. destruct (load_stats_Some_store w b Hb) as [d Hd].
  rewrite (load_user_segments w d b Hd Hb), (load_power_users w d b Hd Hb).
  split; [by simplify_map_eq|]. by apply (load_source w d).
Qed.

Lemma power_users_and_source_witness :
  ∃ b, (load_stats_from_mongodb (world_of sample_database)).1 = inr (Some b) ∧
       user_segments b !! "power" = Some (power_users b) ∧
       source b = "MongoDB (150K Sample)".
Proof.
  destruct (load_stats_returns (world_of sample_database) sample_database)
    as [b Hb]; [reflexivity|].
  exists b. split; [exact Hb|].
  exact (power_users_and_source (world_of sample_database) b Hb).
Defined.

(** ** The rating histogram *)

(** C1: for a store with reviews, [rating_percentages[k]] is
    [rating_counts[k] / total_reviews * 100] for every key [k] of
    [rating_counts]; when [total_reviews] is 0 the mapping is empty. *)
Theorem rating_percentages_correct w d :
  store w = Some d →
  ∃ b, (load_stats_from_mongodb w).1 = inr (Some b) ∧
    (reviews d ≠ [] → ∀ k v, rating_counts b !! k = Some v →
       rating_percentages b !! k = Some (percentage v (total_reviews b))) ∧
    (total_reviews b = 0 → rating_percentages b = ∅).
Proof.
  intros Hd. destruct (load_stats_returns w d Hd) as [b Hb].
  exists b. split; [done|].
  rewrite (load_rating_percentages w d b Hd Hb).
  pose proof (load_total_reviews w d b Hd Hb) as Ht. split.
  - intros Hne k v Hk.
    assert (0 < total_reviews b) as ->%Z.ltb_lt.
    { rewrite Ht. destruct (reviews d); [done|]. simpl. lia. }
    by rewrite lookup_fmap, Hk.
  - by intros ->.
Qed.

Lemma rating_percentages_correct_witness :
  ∃ b, (load_stats_from_mongodb (world_of sample_database)).1 = inr (Some b) ∧
    (reviews sample_database ≠ [] → ∀ k v, rating_counts b !! k = Some v →
       rating_percentages b !! k = Some (percentage v (total_reviews b))) ∧
    (total_reviews b = 0 → rating_percentages b = ∅).
Proof.
  apply (rating_percentages_correct (world_of sample_database) sample_database).
  reflexivity.
Defined.

Global Instance Zsum_Permutation : Proper ((≡ₚ) ==> (=)) Zsum.
Proof.
  intros xs ys Hp. unfold Zsum.
  apply (foldr_permutation (=) Z.add 0); [|done]. intros; lia.
Qed.

Lemma Zsum_fmap_add {K} (f g : K → Z) ks :
  Zsum ((λ k, f k + g k) <$> ks) = Zsum (f <$> ks) + Zsum (g <$> ks).
Proof.
  unfold Zsum. induction ks as [|k ks IH]; [done|].
  rewrite !fmap_cons. cbn [foldr]. rewrite IH. lia.
Qed.

(** In a duplicate-free list of ids exactly one equals a given member. *)
Lemma Zsum_indicator {K} `{EqDecision K} (a : K) ks :
  NoDup ks →
  Zsum ((λ k, if decide (a = k) then 1 else 0) <$> ks) = if decide (a ∈ ks) then 1 else 0.
Proof.
  unfold Zsum. induction 1 as [|k ks Hk Hnd IH]; [done|].
  rewrite fmap_cons. cbn [foldr]. rewrite IH.
  destruct (decide (a = k)) as [->|Hne].
  - rewrite (decide_True (P := k ∈ k :: ks)) by left.
    by rewrite (decide_False (P := k ∈ ks)).
  - destruct (decide (a ∈ ks)) as [Hin|Hin].
    + rewrite decide_True by (by right). lia.
    + rewrite decide_False; [lia|]. by intros [?|?]%elem_of_cons.
Qed.

(** The groups of a [$group] stage partition the collection. *)
Lemma group_counts_total {D K} `{EqDecision K} (key : D → K) docs ks :
  NoDup ks → (∀ x, x ∈ docs → key x ∈ ks) →
  Zsum ((λ k, sum1 (filter (λ x, key x = k) docs)) <$> ks) = Z.of_nat (length docs).
Proof.
  intros Hnd. induction docs as [|x docs IH]; intros Hks.
  - clear. unfold Zsum. induction ks as [|k ks IHks]; [done|].
    rewrite fmap_cons. cbn [foldr]. by rewrite IHks.
  - rewrite <-(list_fmap_ext
      (λ k, sum1 (filter (λ x, key x = k) docs) + (if decide (key x = k) then 1 else 0))).
    + rewrite Zsum_fmap_add, IH, Zsum_indicator by (done || set_solver).
      rewrite decide_True by set_solver. simpl. lia.
    + intros _ k _. unfold sum1. rewrite filter_cons.
      destruct (decide (key x = k)); simpl; lia.
Qed.

Lemma group_sum1_total {D K} `{EqDecision K} (key : D → K) docs :
  Zsum (group key sum1 docs).*2 = Z.of_nat (length docs).
Proof.
  unfold group. rewrite <-list_fmap_compose.
  apply (group_counts_total key docs).
  - apply NoDup_remove_dups.
  - intros x Hx. apply elem_of_remove_dups, list_elem_of_fmap. eauto.
Qed.

(** C9: the values of [rating_counts] add up to [total_reviews], and both
    are the number of reviews in the store: every review falls into exactly
    one score group, those without a score into the group of null, whose
    entry like any other counts the reviews of the group. *)
Theorem rating_counts_total w d :
  store w = Some d →
  ∃ b, (load_stats_from_mongodb w).1 = inr (Some b) ∧
       dict_sum (rating_counts b) = total_reviews b ∧
       dict_sum (rating_counts b) = Z.of_nat (length (reviews d)) ∧
       ∀ s, with_score s (reviews d) ≠ [] →
         rating_counts b !! str_id str_float s =
           Some (Z.of_nat (length (with_score s (reviews d)))).
Proof.
  intros Hd. destruct (load_stats_returns w d Hd) as [b Hb].
  exists b. split; [done|].
  rewrite (load_rating_counts w d b Hd Hb), (load_total_reviews w d b Hd Hb).
  assert (dict_sum (dict (by_id str_float (rating_pipeline (reviews d)))) =
          Z.of_nat (length (reviews d))) as Hsum.
  { unfold dict_sum, rating_pipeline. rewrite dict_to_list.
    - rewrite by_id_values, sort_id_Permutation. apply group_sum1_total.
    - apply (NoDup_by_id _). rewrite sort_id_Permutation. apply NoDup_group_ids. }
  split; [done|]. split; [done|].
  intros s Hs. unfold rating_pipeline.
  apply (dict_grouped_lookup str_float). exists s. split; [done|].
  split; [|done].
  destruct (with_score s (reviews d)) as [|x l] eqn:Hw; [done|].
  assert (x ∈ with_score s (reviews d)) as Hx by (rewrite Hw; left).
  apply list_elem_of_filter in Hx as [Hx1 Hx2]. eauto.
Qed.

Lemma rating_counts_total_witness :
  ∃ b, (load_stats_from_mongodb (world_of sample_database)).1 = inr (Some b) ∧
       dict_sum (rating_counts b) = total_reviews b ∧
       dict_sum (rating_counts b) = Z.of_nat (length (reviews sample_database)) ∧
       ∀ s, with_score s (reviews sample_database) ≠ [] →
         rating_counts b !! str_id str_float s =
           Some (Z.of_nat (length (with_score s (reviews sample_database)))).
Proof.
  apply (rating_counts_total (world_of sample_database) sample_database).
  reflexivity.
Defined.

(** ** User segments *)

Lemma lte_5_Casual rc : lte 5 rc = true ↔ segment_of <$> rc = Some Casual.
Proof.
  destruct rc as [n|]; simpl; [|done]. unfold segment_of.
  destruct (Z.leb_spec n 5), (Z.leb_spec n 50); naive_solver lia.
Qed.

Lemma gt_5_lte_50_Regular rc :
  gt 5 rc && lte 50 rc = true ↔ segment_of <$> rc = Some Regular.
Proof.
  destruct rc as [n|]; simpl; [|done]. unfold segment_of.
  destruct (Z.ltb_spec 5 n), (Z.leb_spec n 5), (Z.leb_spec n 50);
    naive_solver lia.
Qed.

Lemma gt_50_Power rc : gt 50 rc = true ↔ segment_of <$> rc = Some Power.
Proof.
  destruct rc as [n|]; simpl; [|done]. unfold segment_of.
  destruct (Z.ltb_spec 50 n), (Z.leb_spec n 5), (Z.leb_spec n 50);
    naive_solver lia.
Qed.

(** Rows with a review count fall into exactly one segment. *)
Lemma rows_in_partition rows :
  Forall (λ u, is_Some (UserStats.review_count u)) rows →
  rows_in Casual rows + rows_in Regular rows + rows_in Power rows =
    Z.of_nat (length rows).
Proof.
  unfold rows_in. induction 1 as [|u rows [n Hn] _ IH]; [done|].
  rewrite !filter_cons, Hn. simpl.
  destruct (segment_of n); repeat case_decide; simplify_eq; simpl in *; lia.
Qed.

(** C2: when every user summary row has a non-negative review count, the
    three counters count the rows with at most 5, with 6 to 50 and with more
    than 50 reviews, each row in exactly one of them, and add up to
    [unique_users]. *)
Theorem user_segments_partition w d :
  store w = Some d →
  Forall (λ u, ∃ n, UserStats.review_count u = Some n ∧ 0 ≤ n) (user_stats d) →
  ∃ b, (load_stats_from_mongodb w).1 = inr (Some b) ∧
    user_segments b !! "casual" = Some (rows_in Casual (user_stats d)) ∧
    user_segments b !! "regular" = Some (rows_in Regular (user_stats d)) ∧
    user_segments b !! "power" = Some (rows_in Power (user_stats d)) ∧
    rows_in Casual (user_stats d) + rows_in Regular (user_stats d)
      + rows_in Power (user_stats d) = unique_users b.
Proof.
  intros Hd Hrows. destruct (load_stats_returns w d Hd) as [b Hb].
  exists b. split; [done|].
  rewrite (load_user_segments w d b Hd Hb), (load_unique_users w d b Hd Hb).
  unfold rows_in.
  rewrite <-(list_filter_iff _ _ _ (λ u, lte_5_Casual (UserStats.review_count u))).
  rewrite <-(list_filter_iff _ _ _ (λ u, gt_5_lte_50_Regular (UserStats.review_count u))).
  rewrite <-(list_filter_iff _ _ _ (λ u, gt_50_Power (UserStats.review_count u))).
  repeat split; [by simplify_map_eq..|].
  rewrite (list_filter_iff _ _ _ (λ u, lte_5_Casual (UserStats.review_count u))).
  rewrite (list_filter_iff _ _ _ (λ u, gt_5_lte_50_Regular (UserStats.review_count u))).
  rewrite (list_filter_iff _ _ _ (λ u, gt_50_Power (UserStats.review_count u))).
  apply rows_in_partition.
  eapply Forall_impl; [done|]. intros u (n & -> & _). by eexists.
Qed.

Lemma user_segments_partition_witness :
  ∃ b, (load_stats_from_mongodb (world_of sample_database)).1 = inr (Some b) ∧
    user_segments b !! "casual" = Some (rows_in Casual (user_stats sample_database)) ∧
    user_segments b !! "regular" = Some (rows_in Regular (user_stats sample_database)) ∧
    user_segments b !! "power" = Some (rows_in Power (user_stats sample_database)) ∧
    rows_in Casual (user_stats sample_database)
      + rows_in Regular (user_stats sample_database)
      + rows_in Power (user_stats sample_database) = unique_users b.
Proof.
  apply (user_segments_partition (world_of sample_database) sample_database).
  - reflexivity.
  - repeat constructor; eexists; (split; [reflexivity|lia]).
Defined.

(** ** Top products *)

Global Instance bson_le_total : Total bson_le.
Proof. intros [x|] [y|]; simpl; try tauto. lia. Qed.

Global Instance bson_le_trans : Transitive bson_le.
Proof. intros [x|] [y|] [z|]; simpl; try tauto. lia. Qed.

Global Instance review_count_desc_total : Total review_count_desc.
Proof. intros p1 p2. unfold review_count_desc. apply (total bson_le). Qed.

Global Instance review_count_desc_trans : Transitive review_count_desc.
Proof.
  intros p1 p2 p3 H12 H23. unfold review_count_desc in *. by etrans.
Qed.

Lemma StronglySorted_take {A} (R : relation A) n l :
  StronglySorted R l → StronglySorted R (take n l).
Proof.
  intros Hl. rewrite <-(take_drop n l) in Hl.
  by apply StronglySorted_app_1_l in Hl.
Qed.

(** C3: [top_products] has [min(15, unique_products)] rows, in descending
    order of [review_count]; it holds no row of the collection more often
    than the collection does, so no product twice, product ids ([_id]) being
    unique within a collection. *)
Theorem top_products_sorted w d :
  store w = Some d →
  ∃ b, (load_stats_from_mongodb w).1 = inr (Some b) ∧
    Z.of_nat (length (top_products b)) = Z.min 15 (unique_products b) ∧
    StronglySorted review_count_desc (top_products b) ∧
    top_products b ⊆+ product_stats d ∧
    (NoDup (ProductStats._id <$> product_stats d) →
     NoDup (ProductStats._id <$> top_products b)).
Proof.
  intros Hd. destruct (load_stats_returns w d Hd) as [b Hb].
  exists b. split; [done|].
  rewrite (load_top_products w d b Hd Hb), (load_unique_products w d b Hd Hb).
  pose proof (merge_sort_Permutation review_count_desc (product_stats d)) as Hp.
  repeat split.
  - rewrite length_take, (Permutation_length Hp). lia.
  - apply StronglySorted_take, (StronglySorted_merge_sort _).
  - etrans; [apply submseteq_take|]. by rewrite Hp.
  - intros Hnd. rewrite fmap_take.
    eapply sublist_NoDup; [|apply sublist_take]. by rewrite Hp.
Qed.

Lemma top_products_sorted_witness :
  ∃ b, (load_stats_from_mongodb (world_of sample_database)).1 = inr (Some b) ∧
    Z.of_nat (length (top_products b)) = Z.min 15 (unique_products b) ∧
    StronglySorted review_count_desc (top_products b) ∧
    top_products b ⊆+ product_stats sample_database ∧
    (NoDup (ProductStats._id <$> product_stats sample_database) →
     NoDup (ProductStats._id <$> top_products b)).
Proof.
  apply (top_products_sorted (world_of sample_database) sample_database).
  reflexivity.
Defined.

(** ** Reviews by year *)

Lemma truthy_Some_ne_0 y : truthy (Some y) = true ↔ y ≠ 0.
Proof. simpl. rewrite negb_true_iff, Z.eqb_neq. done. Qed.

Lemma NoDup_filter_ids {A} (P : option Z * A → Prop) `{∀ r, Decision (P r)}
    (rows : list (option Z * A)) :
  NoDup rows.*1 → NoDup (filter P rows).*1.
Proof.
  intros Hnd. eapply sublist_NoDup; [done|].
  apply fmap_sublist, sublist_filter.
Qed.

(** The keys of [yearly_data]: the years of the reviews, other than 0. *)
Lemma yearly_data_keys w d b k :
  store w = Some d → (load_stats_from_mongodb w).1 = inr (Some b) →
  is_Some (yearly_data b !! k) ↔
  ∃ y, y ≠ 0 ∧ k = str_int y ∧ ∃ r, r ∈ reviews d ∧ Reviews.year r = Some y.
Proof.
  intros Hd Hb. rewrite (load_yearly_data w d b Hd Hb). unfold yearly_pipeline.
  set (acc := λ g : list Reviews.t, _).
  assert (NoDup (filter (λ y : option Z * Yearly.t, truthy y.1 = true)
            (sort_id (group Reviews.year acc (reviews d)))).*1) as Hnd.
  { apply NoDup_filter_ids. rewrite sort_id_Permutation. apply NoDup_group_ids. }
  unfold is_Some. setoid_rewrite (dict_by_id_lookup _ _ _ _ Hnd).
  setoid_rewrite list_elem_of_filter. setoid_rewrite sort_id_Permutation.
  setoid_rewrite elem_of_group. split.
  - intros (v & [y|] & -> & Ht & (r & Hr & Hy) & _); [|done].
    apply truthy_Some_ne_0 in Ht. exists y. eauto.
  - intros (y & Hy & -> & r & Hr & Hry).
    eexists _, (Some y). repeat split; [by apply truthy_Some_ne_0|eauto].
Qed.

(** C4, at a store with a review dated year 0: the year is present and not
    null, yet [yearly_data] has no entry for it. *)
Theorem yearly_data_drops_year_zero :
  ∃ b, (load_stats_from_mongodb (world_of year_zero_database)).1 = inr (Some b) ∧
    (∃ r, r ∈ reviews year_zero_database ∧ Reviews.year r = Some 0) ∧
    yearly_data b !! "0" = None.
Proof.
  assert (store (world_of year_zero_database) = Some year_zero_database)
    as Hd by reflexivity.
  destruct (load_stats_returns _ _ Hd) as [b Hb].
  exists b. split; [done|]. split.
  - eexists. split; [left|]. reflexivity.
  - apply eq_None_not_Some.
    rewrite (yearly_data_keys _ _ _ _ Hd Hb).
    intros (y & Hy & Hk & _). change "0" with (str_int 0) in Hk.
    by apply (inj str_int) in Hk.
Qed.

(** ** A store without reviews *)

(** C6 as stated fails: [top_products] is read from the product summaries,
    whatever the reviews are. *)
Lemma zero_reviews_top_products_nonempty :
  store (world_of no_reviews_database) = Some no_reviews_database ∧
  reviews no_reviews_database = [] ∧
  ∃ b, (load_stats_from_mongodb (world_of no_reviews_database)).1 = inr (Some b) ∧
       top_products b ≠ [].
Proof.
  assert (store (world_of no_reviews_database) = Some no_reviews_database)
    as Hd by reflexivity.
  destruct (load_stats_returns _ _ Hd) as [b Hb].
  split; [done|]. split; [done|]. exists b. split; [done|].
  by rewrite (load_top_products _ _ _ Hd Hb).
Qed.

(** C6, amended: for a store without reviews the aggregator returns a bundle
    with [total_reviews], [avg_rating] and [avg_word_count] equal to 0 and
    with empty [rating_counts], [rating_percentages], [yearly_data],
    [word_count_by_rating] and [helpful_by_rating]; [top_products] is empty
    exactly when there are no product summaries. *)
Theorem zero_reviews_bundle w d :
  store w = Some d → reviews d = [] →
  ∃ b, (load_stats_from_mongodb w).1 = inr (Some b) ∧
    total_reviews b = 0 ∧ avg_rating b = Some 0%Q ∧ avg_word_count b = Some 0%Q ∧
    rating_counts b = ∅ ∧ rating_percentages b = ∅ ∧ yearly_data b = ∅ ∧
    word_count_by_rating b = ∅ ∧ helpful_by_rating b = ∅ ∧
    (top_products b = [] ↔ product_stats d = []).
Proof.
  intros Hd Hr. destruct (load_stats_returns w d Hd) as [b Hb].
  exists b. split; [done|].
  pose proof (load_total_reviews w d b Hd Hb) as Ht.
  rewrite (load_rating_percentages w d b Hd Hb),
    (load_avg_rating w d b Hd Hb), (load_avg_word_count w d b Hd Hb),
    (load_rating_counts w d b Hd Hb), (load_yearly_data w d b Hd Hb),
    (load_word_count_by_rating w d b Hd Hb),
    (load_helpful_by_rating w d b Hd Hb), (load_top_products w d b Hd Hb).
  rewrite Hr in *. simpl in Ht. rewrite Ht.
  repeat split; try done.
  - intros Hnil.
    pose proof (merge_sort_Permutation review_count_desc (product_stats d)) as Hp.
    apply Permutation_length in Hp. apply (f_equal length) in Hnil.
    rewrite length_take, Hp in Hnil.
    destruct (product_stats d); [done|]. simpl in Hnil. lia.
  - by intros ->.
Qed.

Lemma zero_reviews_bundle_witness :
  ∃ b, (load_stats_from_mongodb (world_of no_reviews_database)).1 = inr (Some b) ∧
    total_reviews b = 0 ∧ avg_rating b = Some 0%Q ∧ avg_word_count b = Some 0%Q ∧
    rating_counts b = ∅ ∧ rating_percentages b = ∅ ∧ yearly_data b = ∅ ∧
    word_count_by_rating b = ∅ ∧ helpful_by_rating b = ∅ ∧
    (top_products b = [] ↔ product_stats no_reviews_database = []).
Proof.
  apply (zero_reviews_bundle (world_of no_reviews_database) no_reviews_database);
    reflexivity.
Defined.

(** ** Averages per score *)

(** [$avg] is the mean of the values that are present. *)
Lemma avg_mean {D} (field : D → option Q) g : avg field g = mean (present field g).
Proof. unfold avg, mean, present. by destruct (omap field g). Qed.

(** The [$match] stage of the helpfulness pipeline removes no value. *)
Lemma present_match_ne_None {D} (field : D → option Q) (P : D → Prop)
    `{∀ x, Decision (P x)} docs :
  present field (filter P (filter (λ x, field x ≠ None) docs)) =
  present field (filter P docs).
Proof.
  unfold present. induction docs as [|x docs IH]; [done|].
  rewrite (filter_cons (λ x, field x ≠ None)), (filter_cons P x docs).
  destruct (decide (field x ≠ None)) as [Hx|Hx].
  - rewrite filter_cons. destruct (decide (P x)); csimpl; by rewrite IH.
  - apply dec_stable in Hx.
    destruct (decide (P x)); csimpl; rewrite ?Hx; by rewrite IH.
Qed.

(** C7: for the score [s] of some review, [word_count_by_rating] holds the
    mean of the word counts present among the reviews of that score; and
    when one of them has a helpfulness ratio, [helpful_by_rating] holds the
    mean of the ratios present among them.  Reviews lacking the field do not
    enter the mean. *)
Theorem averages_over_present w d s :
  store w = Some d →
  ∃ b, (load_stats_from_mongodb w).1 = inr (Some b) ∧
    ((∃ r, r ∈ reviews d ∧ Reviews.score r = s) →
     word_count_by_rating b !! str_id str_float s =
       Some (mean (present (λ r, num (Reviews.word_count r))
                     (with_score s (reviews d))))) ∧
    ((∃ r, r ∈ reviews d ∧ Reviews.score r = s ∧ Reviews.helpful_ratio r ≠ None) →
     helpful_by_rating b !! str_id str_float s =
       Some (mean (present Reviews.helpful_ratio (with_score s (reviews d))))).
Proof.
  intros Hd. destruct (load_stats_returns w d Hd) as [b Hb].
  exists b. split; [done|].
  rewrite (load_word_count_by_rating w d b Hd Hb),
    (load_helpful_by_rating w d b Hd Hb).
  unfold wc_pipeline, help_pipeline, with_score. split.
  - intros (r & Hr & Hs). apply (dict_grouped_lookup _).
    exists s. repeat split; [eauto|]. by rewrite avg_mean.
  - intros (r & Hr & Hs & Hh). apply (dict_grouped_lookup _).
    exists s. repeat split.
    + exists r. by rewrite list_elem_of_filter.
    + by rewrite avg_mean, present_match_ne_None.
Qed.

Lemma averages_over_present_witness :
  ∃ b, (load_stats_from_mongodb (world_of sample_database)).1 = inr (Some b) ∧
    ((∃ r, r ∈ reviews sample_database ∧ Reviews.score r = Some 1) →
     word_count_by_rating b !! str_id str_float (Some 1) =
       Some (mean (present (λ r, num (Reviews.word_count r))
                     (with_score (Some 1) (reviews sample_database))))) ∧
    ((∃ r, r ∈ reviews sample_database ∧ Reviews.score r = Some 1
           ∧ Reviews.helpful_ratio r ≠ None) →
     helpful_by_rating b !! str_id str_float (Some 1) =
       Some (mean (present Reviews.helpful_ratio
                     (with_score (Some 1) (reviews sample_database))))).
Proof.
  apply (averages_over_present (world_of sample_database) sample_database).
  reflexivity.
Defined.

(** Of the two sample reviews with score 1 one has no word count: the mean
    is 10, the word count of the other, not 5. *)
Example mean_word_count_score_1 :
  mean (present (λ r, num (Reviews.word_count r))
          (with_score (Some 1) sample_reviews)) = Some (10 # 1).
Proof. reflexivity. Qed.

(** The bundle of the sample store, by evaluation. *)
Example sample_bundle :
  let b := match (load_stats_from_mongodb (world_of sample_database)).1 with
           | inr b => b
           | inl _ => None
           end in
  total_reviews <$> b = Some 5 ∧
  rating_counts <$> b = Some {[ "None" := 1; "1.0" := 2; "5.0" := 2 ]} ∧
  rating_percentages <$> b =
    Some {[ "None" := 20%float; "1.0" := 40%float; "5.0" := 40%float ]} ∧
  dom <$> (yearly_data <$> b) = Some {[ "2000"; "2001" ]} ∧
  user_segments <$> b = Some {[ "casual" := 2; "regular" := 1; "power" := 1 ]}.
Proof. vm_compute. repeat split; reflexivity. Qed.

(** * The rest of the bundle, and the dashboard's reading of it *)

(** ** Reading the keys back: [int] after [str] *)

Lemma digit_pretty_N_char x :
  (x < 10)%N → digit (pretty_N_char x) = Some (Z.of_N x).
Proof.
  intros Hx. rewrite <-(N2Nat.id x).
  assert (N.to_nat x < 10)%nat as Hn by lia.
  revert Hn. generalize (N.to_nat x). intros n Hn.
  do 10 (destruct n as [|n]; [reflexivity|]). lia.
Qed.

(** The digits that [pretty_N_go] puts in front of [s] are read as the
    number they print. *)
Lemma int_digits_pretty_N_go x :
  ∃ k : nat, ∀ acc s,
    int_digits acc (pretty_N_go x s) = int_digits (acc * 10 ^ Z.of_nat k + Z.of_N x) s.
Proof.
  induction (N.lt_wf_0 x) as [x _ IH].
  destruct (decide (x = 0)%N) as [->|Hx].
  { exists 0%nat. intros acc s. rewrite pretty_N_go_0. f_equal. simpl. lia. }
  destruct (IH (x `div` 10)%N) as [k Hk]; [apply N.div_lt; lia|].
  exists (S k). intros acc s.
  rewrite pretty_N_go_step, Hk by lia. cbn [int_digits].
  rewrite digit_pretty_N_char by (apply N.mod_lt; lia). simpl.
  f_equal. rewrite Nat2Z.inj_succ, Z.pow_succ_r by lia.
  rewrite N2Z.inj_div, N2Z.inj_mod. simpl Z.of_N.
  pose proof (Z.div_mod (Z.of_N x) 10). lia.
Qed.

Lemma pretty_N_go_head x c s :
  is_Some (digit c) →
  ∃ c' s', pretty_N_go x (String c s) = String c' s' ∧ is_Some (digit c').
Proof.
  revert c s. induction (N.lt_wf_0 x) as [x _ IH]; intros c s Hc.
  destruct (decide (x = 0)%N) as [->|Hx]; [rewrite pretty_N_go_0; eauto|].
  rewrite pretty_N_go_step by lia. apply IH; [apply N.div_lt; lia|].
  rewrite digit_pretty_N_char by (apply N.mod_lt; lia). eauto.
Qed.

Lemma int_of_str_digits c s :
  is_Some (digit c) → int_of_str (String c s) = int_digits 0 (String c s).
Proof.
  intros [d Hd].
  destruct (decide (c = "-"%char)) as [->|Hm]; [discriminate Hd|].
  destruct (decide (c = "+"%char)) as [->|Hp]; [discriminate Hd|].
  clear Hd. destruct c as [b0 b1 b2 b3 b4 b5 b6 b7].
  destruct b0, b1, b2, b3, b4, b5, b6, b7; done.
Qed.

Lemma pretty_positive_digits (p : positive) :
  ∃ c s, pretty (N.pos p) = String c s ∧ is_Some (digit c) ∧
         int_digits 0 (String c s) = Some (Z.pos p).
Proof.
  unfold pretty, pretty_N. rewrite decide_False by done.
  destruct (int_digits_pretty_N_go (N.pos p)) as [k Hk].
  specialize (Hk 0 EmptyString). simpl in Hk.
  rewrite pretty_N_go_step in Hk |- * by lia.
  destruct (pretty_N_go_head (N.pos p `div` 10)
    (pretty_N_char (N.pos p `mod` 10)) EmptyString) as (c & s & Heq & Hc).
  { rewrite digit_pretty_N_char by (apply N.mod_lt; lia). eauto. }
  rewrite Heq in Hk |- *. eauto.
Qed.

Lemma int_of_str_pretty (n : Z) : int_of_str (pretty n) = Some n.
Proof.
  unfold pretty, pretty_Z. destruct n as [|p|p]; [done|..].
  - unfold pretty, pretty_positive.
    destruct (pretty_positive_digits p) as (c & s & -> & Hc & Hs).
    by rewrite int_of_str_digits.
  - unfold pretty, pretty_positive.
    destruct (pretty_positive_digits p) as (c & s & -> & Hc & Hs).
    change ("-" +:+ String c s) with (String "-" (String c s)).
    cbn [int_of_str]. by rewrite Hs.
Qed.

(** X1: [int(str(n))] is [n] for every integer [n]: a year written as a key
    of [yearly_data] (line 169) is read back by the trends tab (line 545)
    without ValueError and unchanged. *)
Theorem int_of_str_str_int n : int_of_str (str_int n) = Some n.
Proof. unfold str_int. apply int_of_str_pretty. Qed.

(** ** Reviews by year, as the trends tab reads them *)

Lemma yearly_rows_NoDup (docs : list Reviews.t) :
  NoDup (filter (λ y : option Z * Yearly.t, truthy y.1 = true)
           (yearly_pipeline docs)).*1.
Proof.
  apply NoDup_filter_ids. unfold yearly_pipeline.
  rewrite sort_id_Permutation. apply NoDup_group_ids.
Qed.

Lemma yearly_data_lookup_run w d b y :
  store w = Some d → (load_stats_from_mongodb w).1 = inr (Some b) → y ≠ 0 →
  (∃ r, r ∈ reviews d ∧ Reviews.year r = Some y) →
  yearly_data b !! str_int y =
    Some {| Yearly.count := Z.of_nat (length (with_year y (reviews d)));
            Yearly.avg_rating :=
              mean (present (λ r, num (Reviews.score r))
                      (with_year y (reviews d))) |}.
Proof.
  intros Hd Hb Hy Hr. rewrite (load_yearly_data w d b Hd Hb).
  apply (dict_by_id_lookup _ _ _ _ (yearly_rows_NoDup (reviews d))).
  exists (Some y). split; [done|].
  apply list_elem_of_filter. split; [by apply truthy_Some_ne_0|].
  unfold yearly_pipeline. rewrite sort_id_Permutation.
  apply elem_of_group. split; [done|].
  unfold with_year, sum1. by rewrite avg_mean.
Qed.

(** X2: for a year other than 0 that has reviews, [yearly_data] holds under
    [str] of the year the number of its reviews and the mean of their
    scores (of those that have one). *)
Theorem yearly_data_lookup w d y :
  store w = Some d → y ≠ 0 →
  (∃ r, r ∈ reviews d ∧ Reviews.year r = Some y) →
  ∃ b, (load_stats_from_mongodb w).1 = inr (Some b) ∧
    yearly_data b !! str_int y =
      Some {| Yearly.count := Z.of_nat (length (with_year y (reviews d)));
              Yearly.avg_rating :=
                mean (present (λ r, num (Reviews.score r))
                        (with_year y (reviews d))) |}.
Proof.
  intros Hd Hy Hr. destruct (load_stats_returns w d Hd) as [b Hb].
  exists b. split; [done|]. by apply (yearly_data_lookup_run w d).
Qed.

Lemma yearly_data_lookup_witness :
  ∃ b, (load_stats_from_mongodb (world_of sample_database)).1 = inr (Some b) ∧
    yearly_data b !! str_int 2000 =
      Some {| Yearly.count :=
                Z.of_nat (length (with_year 2000 (reviews sample_database)));
              Yearly.avg_rating :=
                mean (present (λ r, num (Reviews.score r))
                        (with_year 2000 (reviews sample_database))) |}.
Proof.
  apply (yearly_data_lookup (world_of sample_database) sample_database 2000).
  - reflexivity.
  - lia.
  - eexists. split; [left|reflexivity].
Defined.

Lemma StronglySorted_le_lt (l : list Z) :
  Sorted Z.le l → NoDup l → StronglySorted Z.lt l.
Proof.
  intros Hs%(Sorted_StronglySorted _). induction Hs as [|x l Hl IH Hx].
  - constructor.
  - intros [Hnin Hnd]%NoDup_cons. constructor; [by apply IH|].
    rewrite Forall_forall in Hx |- *. intros z Hz.
    specialize (Hx z Hz). assert (x ≠ z) by (by intros ->). lia.
Qed.

Lemma mapM_int_of_str_keys keys :
  Forall (λ k, ∃ y, k = str_int y) keys →
  ∃ ys, mapM int_of_str keys = Some ys ∧ str_int <$> ys = keys.
Proof.
  induction 1 as [|k keys [y ->] _ (ys & Hys & Hback)].
  - by exists [].
  - exists (y :: ys). split; [|by rewrite fmap_cons, Hback].
    rewrite mapM_Some in Hys |- *. constructor; [|done].
    apply int_of_str_pretty.
Qed.

(** The keys of [yearly_data], read back with [int]. *)
Lemma yearly_keys_int w d b :
  store w = Some d → (load_stats_from_mongodb w).1 = inr (Some b) →
  ∃ ys, mapM int_of_str (map_to_list (yearly_data b)).*1 = Some ys ∧
        str_int <$> ys = (map_to_list (yearly_data b)).*1 ∧
        NoDup ys ∧
        ∀ y, y ∈ ys ↔ y ≠ 0 ∧ ∃ r, r ∈ reviews d ∧ Reviews.year r = Some y.
Proof.
  intros Hd Hb.
  assert (∀ k, k ∈ (map_to_list (yearly_data b)).*1 ↔
            ∃ y, y ≠ 0 ∧ k = str_int y ∧
                 ∃ r, r ∈ reviews d ∧ Reviews.year r = Some y) as Hkeys.
  { intros k. rewrite <-(yearly_data_keys w d b k Hd Hb).
    rewrite list_elem_of_fmap. unfold is_Some. split.
    - intros ([k' v] & -> & Hkv%elem_of_map_to_list). eauto.
    - intros [v Hv%elem_of_map_to_list]. by exists (k, v). }
  destruct (mapM_int_of_str_keys (map_to_list (yearly_data b)).*1)
    as (ys & Hys & Hback).
  { apply Forall_forall. intros k (y & _ & -> & _)%Hkeys. eauto. }
  exists ys. split; [done|]. split; [done|]. split.
  - apply (NoDup_fmap_1 str_int). rewrite Hback. apply NoDup_fst_map_to_list.
  - intros y. rewrite <-(list_elem_of_fmap_inj str_int), Hback, Hkeys. split.
    + by intros (y' & Hy' & ->%(inj str_int) & Hr).
    + intros [Hy Hr]. eauto.
Qed.

Lemma trend_years_run w d b :
  store w = Some d → (load_stats_from_mongodb w).1 = inr (Some b) →
  ∃ ys, Trends.years b = Some ys ∧
    StronglySorted Z.lt ys ∧
    ∀ y, y ∈ ys ↔ 1997 ≤ y ∧ ∃ r, r ∈ reviews d ∧ Reviews.year r = Some y.
Proof.
  intros Hd Hb.
  destruct (yearly_keys_int w d b Hd Hb) as (ys & Hys & _ & Hnd & Hin).
  exists (merge_sort Z.le (filter (λ y, 1997 ≤ y) ys)).
  split; [unfold Trends.years; by rewrite Hys|]. split.
  - apply StronglySorted_le_lt; [apply (Sorted_merge_sort _)|].
    rewrite merge_sort_Permutation. by apply NoDup_filter.
  - intros y. rewrite merge_sort_Permutation, list_elem_of_filter, Hin.
    split; [by intros (Hy & _ & Hr)|].
    intros [Hy Hr]. split; [done|]. split; [lia|done].
Qed.

(** X3: the years of the trends chart (line 545): [int] raises for no key
    of [yearly_data], and the result lists, in ascending order and once
    each, the years from 1997 on that have a review. *)
Theorem trend_years_correct w d :
  store w = Some d →
  ∃ b ys, (load_stats_from_mongodb w).1 = inr (Some b) ∧
    Trends.years b = Some ys ∧
    StronglySorted Z.lt ys ∧
    ∀ y, y ∈ ys ↔ 1997 ≤ y ∧ ∃ r, r ∈ reviews d ∧ Reviews.year r = Some y.
Proof.
  intros Hd. destruct (load_stats_returns w d Hd) as [b Hb].
  destruct (trend_years_run w d b Hd Hb) as (ys & Hys).
  by exists b, ys.
Qed.

Lemma trend_years_correct_witness :
  ∃ b ys, (load_stats_from_mongodb (world_of sample_database)).1 = inr (Some b) ∧
    Trends.years b = Some ys ∧
    StronglySorted Z.lt ys ∧
    ∀ y, y ∈ ys ↔
      1997 ≤ y ∧ ∃ r, r ∈ reviews sample_database ∧ Reviews.year r = Some y.
Proof.
  apply (trend_years_correct (world_of sample_database) sample_database).
  reflexivity.
Defined.

(** X4: the counts and average ratings of the trends chart (lines 546-547):
    no lookup [yearly_data[str(y)]] raises KeyError, and each year is
    charted with the number of its reviews and the mean of their scores. *)
Theorem trend_counts_correct w d :
  store w = Some d →
  ∃ b ys, (load_stats_from_mongodb w).1 = inr (Some b) ∧
    Trends.years b = Some ys ∧
    Trends.counts b ys =
      Some ((λ y, Z.of_nat (length (with_year y (reviews d)))) <$> ys) ∧
    Trends.avg_ratings b ys =
      Some ((λ y, mean (present (λ r, num (Reviews.score r))
                          (with_year y (reviews d)))) <$> ys).
Proof.
  intros Hd. destruct (load_stats_returns w d Hd) as [b Hb].
  destruct (trend_years_run w d b Hd Hb) as (ys & Hys & _ & Hin).
  exists b, ys. split; [done|]. split; [done|].
  assert (Forall (λ y, yearly_data b !! str_int y =
      Some {| Yearly.count := Z.of_nat (length (with_year y (reviews d)));
              Yearly.avg_rating :=
                mean (present (λ r, num (Reviews.score r))
                        (with_year y (reviews d))) |}) ys) as Hall.
  { apply Forall_forall. intros y [Hy Hr]%Hin.
    apply (yearly_data_lookup_run w d b y Hd Hb); [lia|done]. }
  unfold Trends.counts, Trends.avg_ratings. split.
  - apply mapM_Some_2, Forall2_fmap_r, Forall_Forall2_diag.
    eapply Forall_impl; [done|]. by intros y ->.
  - apply mapM_Some_2, Forall2_fmap_r, Forall_Forall2_diag.
    eapply Forall_impl; [done|]. by intros y ->.
Qed.

Lemma trend_counts_correct_witness :
  ∃ b ys, (load_stats_from_mongodb (world_of sample_database)).1 = inr (Some b) ∧
    Trends.years b = Some ys ∧
    Trends.counts b ys =
      Some ((λ y, Z.of_nat (length (with_year y (reviews sample_database))))
              <$> ys) ∧
    Trends.avg_ratings b ys =
      Some ((λ y, mean (present (λ r, num (Reviews.score r))
                          (with_year y (reviews sample_database)))) <$> ys).
Proof.
  apply (trend_counts_correct (world_of sample_database) sample_database).
  reflexivity.
Defined.

(** ** The histogram, as the ratings tab reads it *)

Lemma dict_grouped_lookup_None {D A} str_num `{!Inj (=) (=) (str_id str_num)}
    (key : D → option Z) (acc : list D → A) docs k :
  (∀ x, x ∈ docs → key x ≠ k) →
  dict (by_id str_num (sort_id (group key acc docs))) !! str_id str_num k = None.
Proof.
  intros Hk. apply eq_None_not_Some. intros [v Hv].
  apply (dict_grouped_lookup str_num) in Hv as (k' & Heq & (x & Hx & Hkx) & _).
  apply (inj _) in Heq as <-. by apply (Hk x).
Qed.

Lemma filter_none {D} (P : D → Prop) `{∀ x, Decision (P x)} (l : list D) :
  (∀ x, x ∈ l → ¬ P x) → filter P l = [].
Proof.
  intros Hl. induction l as [|x l IH]; [done|].
  rewrite filter_cons_False by (apply Hl; left).
  apply IH. intros y Hy. apply Hl. by right.
Qed.

Lemma rating_counts_get_run w d b s :
  store w = Some d → (load_stats_from_mongodb w).1 = inr (Some b) →
  dict_get (rating_counts b) (str_id str_float s) 0 =
    Z.of_nat (length (with_score s (reviews d))).
Proof.
  intros Hd Hb.
  rewrite (load_rating_counts w d b Hd Hb). unfold dict_get, rating_pipeline, with_score.
  destruct (decide (s ∈ Reviews.score <$> reviews d)) as [Hs|Hs].
  - apply list_elem_of_fmap in Hs as (r & -> & Hr).
    rewrite (proj2 (dict_grouped_lookup str_float Reviews.score sum1 (reviews d)
      (str_id str_float (Reviews.score r))
      (sum1 (filter (λ x, Reviews.score x = Reviews.score r) (reviews d)))));
      [reflexivity|].
    exists (Reviews.score r). eauto.
  - assert (∀ x, x ∈ reviews d → Reviews.score x ≠ s) as Hne.
    { intros x Hx <-. apply Hs, list_elem_of_fmap. eauto. }
    rewrite (dict_grouped_lookup_None str_float _ _ _ _ Hne).
    by rewrite filter_none.
Qed.

(** X6: [rating_counts.get(str(s), 0)] is the number of reviews with score
    [s], the null score included: the entry when there is such a review, the
    default 0 when there is none. *)
Theorem rating_counts_get w d s :
  store w = Some d →
  ∃ b, (load_stats_from_mongodb w).1 = inr (Some b) ∧
    dict_get (rating_counts b) (str_id str_float s) 0 =
      Z.of_nat (length (with_score s (reviews d))).
Proof.
  intros Hd. destruct (load_stats_returns w d Hd) as [b Hb].
  exists b. split; [done|]. by apply (rating_counts_get_run w d).
Qed.

Lemma rating_counts_get_witness :
  ∃ b, (load_stats_from_mongodb (world_of sample_database)).1 = inr (Some b) ∧
    dict_get (rating_counts b) (str_id str_float (Some 5)) 0 =
      Z.of_nat (length (with_score (Some 5) (reviews sample_database))).
Proof.
  apply (rating_counts_get (world_of sample_database) sample_database (Some 5)).
  reflexivity.
Defined.

Lemma ratings_str_float : ratings = str_float <$> [1; 2; 3; 4; 5].
Proof. reflexivity. Qed.

Lemma star_counts_total (docs : list Reviews.t) :
  Zsum ((λ n, Z.of_nat (length (with_score (Some n) docs))) <$> [1; 2; 3; 4; 5]) =
  Z.of_nat (length (filter (λ r, is_star (Reviews.score r) = true) docs)).
Proof.
  unfold with_score. induction docs as [|r docs IH]; [done|].
  cbn [fmap list_fmap Zsum foldr] in *. rewrite !filter_cons.
  destruct (Reviews.score r) as [n|] eqn:Hn; simpl.
  - destruct (decide (1 ≤ n ≤ 5)) as [Hin|Hout].
    + assert (n = 1 ∨ n = 2 ∨ n = 3 ∨ n = 4 ∨ n = 5) as Hcases by lia.
      repeat destruct Hcases as [->|Hcases]; [..|subst];
        repeat case_decide; simplify_eq/=; lia.
    + assert (is_star (Some n) = false) as Hf.
      { simpl. apply andb_false_iff. rewrite Z.leb_gt, Z.leb_gt. lia. }
      simpl in Hf. rewrite Hf.
      repeat case_decide; simplify_eq/=; lia.
  - repeat case_decide; simplify_eq/=; lia.
Qed.

(** X7: the five bars of the histogram (lines 588-589) show the reviews with
    a score from 1 to 5, each under its score: the keys '1.0' to '5.0' that
    the tab looks up are the keys the aggregator writes.  Reviews with
    another score or none are in no bar. *)
Theorem rating_chart_counts w d :
  store w = Some d →
  ∃ b, (load_stats_from_mongodb w).1 = inr (Some b) ∧
    Ratings.counts b =
      (λ n, Z.of_nat (length (with_score (Some n) (reviews d)))) <$> [1; 2; 3; 4; 5] ∧
    Zsum (Ratings.counts b) =
      Z.of_nat (length (filter (λ r, is_star (Reviews.score r) = true) (reviews d))).
Proof.
  intros Hd. destruct (load_stats_returns w d Hd) as [b Hb].
  exists b. split; [done|].
  assert (Ratings.counts b =
    (λ n, Z.of_nat (length (with_score (Some n) (reviews d)))) <$> [1; 2; 3; 4; 5])
    as Hcounts.
  { unfold Ratings.counts. rewrite ratings_str_float, <-list_fmap_compose.
    apply list_fmap_ext. intros _ n _. simpl.
    apply (rating_counts_get_run w d b (Some n) Hd Hb). }
  split; [done|]. rewrite Hcounts. apply star_counts_total.
Qed.

Lemma rating_chart_counts_witness :
  ∃ b, (load_stats_from_mongodb (world_of sample_database)).1 = inr (Some b) ∧
    Ratings.counts b =
      (λ n, Z.of_nat (length (with_score (Some n) (reviews sample_database))))
        <$> [1; 2; 3; 4; 5] ∧
    Zsum (Ratings.counts b) =
      Z.of_nat (length (filter (λ r, is_star (Reviews.score r) = true)
                          (reviews sample_database))).
Proof.
  apply (rating_chart_counts (world_of sample_database) sample_database).
  reflexivity.
Defined.

(** ** Averages per score, as the helpfulness and text tabs read them *)

Lemma mean_is_Some xs : is_Some (mean xs) ↔ xs ≠ [].
Proof. destruct xs; simpl; split; (done || by eauto || by intros [? [=]]). Qed.


Lemma present_nil_iff {D} (field : D → option Q) docs :
  present field docs = [] ↔ ∀ x, x ∈ docs → field x = None.
Proof.
  unfold present. induction docs as [|x docs IH]; [by split; [intros _ ? ?%elem_of_nil|]|].
  csimpl. destruct (field x) as [q|] eqn:Hq; simpl.
  - split; [done|]. intros Hall. specialize (Hall x (list_elem_of_here _ _)). congruence.
  - rewrite IH. split.
    + intros Hall y [->|Hy]%elem_of_cons; auto.
    + intros Hall y Hy. apply Hall. by right.
Qed.

(** X9: [helpful_by_rating] has an entry for a score exactly when a review
    of that score has a helpfulness ratio, and no entry is null: the five
    values of the helpfulness chart (line 635) are numbers. *)
Theorem helpful_by_rating_entries w d :
  store w = Some d →
  ∃ b, (load_stats_from_mongodb w).1 = inr (Some b) ∧
    (∀ s, is_Some (helpful_by_rating b !! str_id str_float s) ↔
          ∃ r, r ∈ reviews d ∧ Reviews.score r = s ∧ Reviews.helpful_ratio r ≠ None) ∧
    (∀ k v, helpful_by_rating b !! k = Some v → is_Some v) ∧
    Forall is_Some (helpful_vals b).
Proof.
  intros Hd. destruct (load_stats_returns w d Hd) as [b Hb].
  exists b. split; [done|].
  rewrite (load_helpful_by_rating w d b Hd Hb). unfold help_pipeline.
  assert (∀ k v,
    dict (by_id str_float (sort_id (group Reviews.score (avg Reviews.helpful_ratio)
      (filter (λ r, Reviews.helpful_ratio r ≠ None) (reviews d))))) !! k = Some v →
    is_Some v) as Hsome.
  { intros k v Hkv.
    apply (dict_grouped_lookup str_float) in Hkv
      as (s & -> & (r & [Hh Hr]%list_elem_of_filter & Hs) & ->).
    rewrite avg_mean. apply mean_is_Some. intros Hnil.
    rewrite present_nil_iff in Hnil. apply Hh, Hnil.
    apply list_elem_of_filter. split; [done|]. by apply list_elem_of_filter. }
  split; [|split; [done|]].
  - intros s. unfold is_Some. setoid_rewrite (dict_grouped_lookup _). split.
    + intros (v & s' & ->%(inj _) & (r & [Hh Hr]%list_elem_of_filter & Hs) & _). eauto.
    + intros (r & Hr & Hs & Hh). eexists _, s. split; [done|]. split; [|done].
      exists r. by rewrite list_elem_of_filter.
  - unfold helpful_vals, dict_get. rewrite (load_helpful_by_rating w d b Hd Hb).
    unfold help_pipeline. apply Forall_fmap, Forall_forall. intros k _. simpl.
    destruct (dict _ !! k) as [v|] eqn:Hk; simpl; [by eapply Hsome|by eauto].
Qed.

Lemma helpful_by_rating_entries_witness :
  ∃ b, (load_stats_from_mongodb (world_of sample_database)).1 = inr (Some b) ∧
    (∀ s, is_Some (helpful_by_rating b !! str_id str_float s) ↔
          ∃ r, r ∈ reviews sample_database ∧ Reviews.score r = s
               ∧ Reviews.helpful_ratio r ≠ None) ∧
    (∀ k v, helpful_by_rating b !! k = Some v → is_Some v) ∧
    Forall is_Some (helpful_vals b).
Proof.
  apply (helpful_by_rating_entries (world_of sample_database) sample_database).
  reflexivity.
Defined.



(** ** The overall averages *)

Lemma remove_dups_const {D} (x : D) (docs : list D) :
  remove_dups ((λ _, tt) <$> (x :: docs)) = [tt].
Proof.
  revert x. induction docs as [|y docs IH]; intros x; [done|].
  rewrite fmap_cons. cbn [remove_dups].
  destruct (decide_rel _ _ _) as [_|Hn]; [apply (IH y)|].
  exfalso. apply Hn. rewrite fmap_cons. left.
Qed.

Lemma filter_tt {D} (docs : list D) : filter (λ _ : D, tt = tt) docs = docs.
Proof.
  induction docs as [|x docs IH]; [done|].
  rewrite filter_cons_True by done. by rewrite IH.
Qed.

Lemma avg_pipeline_cons r docs :
  avg_pipeline (r :: docs) =
    [(tt, (avg (λ d, num (Reviews.score d)) (r :: docs),
           avg (λ d, num (Reviews.word_count d)) (r :: docs)))].
Proof.
  unfold avg_pipeline, group. rewrite remove_dups_const.
  cbn [fmap list_fmap]. by rewrite filter_tt.
Qed.

(** X11: with reviews in the store, [avg_rating] and [avg_word_count] are
    the means of the scores and of the word counts that are present, null
    when none is; the 0 of lines 199-200 is for a store without reviews
    only. *)
Theorem overall_averages w d :
  store w = Some d → reviews d ≠ [] →
  ∃ b, (load_stats_from_mongodb w).1 = inr (Some b) ∧
    avg_rating b = mean (present (λ r, num (Reviews.score r)) (reviews d)) ∧
    avg_word_count b = mean (present (λ r, num (Reviews.word_count r)) (reviews d)).
Proof.
  intros Hd Hne. destruct (load_stats_returns w d Hd) as [b Hb].
  exists b. split; [done|].
  rewrite (load_avg_rating w d b Hd Hb), (load_avg_word_count w d b Hd Hb).
  destruct (reviews d) as [|r docs]; [done|].
  rewrite avg_pipeline_cons. simpl. by rewrite !avg_mean.
Qed.

Lemma overall_averages_witness :
  ∃ b, (load_stats_from_mongodb (world_of sample_database)).1 = inr (Some b) ∧
    avg_rating b =
      mean (present (λ r, num (Reviews.score r)) (reviews sample_database)) ∧
    avg_word_count b =
      mean (present (λ r, num (Reviews.word_count r)) (reviews sample_database)).
Proof.
  apply (overall_averages (world_of sample_database) sample_database);
    [reflexivity|discriminate].
Defined.

(** ** The highest review counts *)

(** X12: no product summary left out of [top_products] has a higher review
    count than one that is in it. *)
Theorem top_products_highest w d :
  store w = Some d →
  ∃ b rest, (load_stats_from_mongodb w).1 = inr (Some b) ∧
    product_stats d ≡ₚ top_products b ++ rest ∧
    ∀ p q, p ∈ top_products b → q ∈ rest → review_count_desc p q.
Proof.
  intros Hd. destruct (load_stats_returns w d Hd) as [b Hb].
  exists b, (drop 15 (merge_sort review_count_desc (product_stats d))).
  split; [done|]. rewrite (load_top_products w d b Hd Hb). split.
  - by rewrite take_drop, merge_sort_Permutation.
  - intros p q Hp Hq.
    pose proof (StronglySorted_merge_sort review_count_desc (product_stats d)) as Hs.
    rewrite <-(take_drop 15 (merge_sort _ _)) in Hs.
    by eapply StronglySorted_app_1_elem_of.
Qed.

Lemma top_products_highest_witness :
  ∃ b rest, (load_stats_from_mongodb (world_of sample_database)).1 = inr (Some b) ∧
    product_stats sample_database ≡ₚ top_products b ++ rest ∧
    ∀ p q, p ∈ top_products b → q ∈ rest → review_count_desc p q.
Proof.
  apply (top_products_highest (world_of sample_database) sample_database).
  reflexivity.
Defined.

(** The labels of the products chart. *)
Lemma substring_0_all (s : string) (n : nat) :
  (String.length s ≤ n)%nat → String.substring 0 n s = s.
Proof.
  revert n. induction s as [|c s IH]; intros [|n] Hn; simpl in *; try done; [lia|].
  rewrite IH; [done|lia].
Qed.

Lemma top_products_NoDup_ids w d b :
  store w = Some d → (load_stats_from_mongodb w).1 = inr (Some b) →
  NoDup (ProductStats._id <$> product_stats d) →
  NoDup (ProductStats._id <$> top_products b).
Proof.
  intros Hd Hb Hnd. rewrite (load_top_products w d b Hd Hb), fmap_take.
  eapply sublist_NoDup; [|apply sublist_take].
  by rewrite merge_sort_Permutation.
Qed.

Lemma top_products_subseteq w d b :
  store w = Some d → (load_stats_from_mongodb w).1 = inr (Some b) →
  top_products b ⊆ product_stats d.
Proof.
  intros Hd Hb. rewrite (load_top_products w d b Hd Hb).
  etrans; [apply subseteq_take|]. intros p. by rewrite merge_sort_Permutation.
Qed.

(** X13: when the product ids have at most 15 characters (and are unique,
    as [_id] is), the labels of the products chart (line 763) are the ids
    followed by '...', pairwise different. *)
Theorem product_ids_NoDup w d :
  store w = Some d →
  NoDup (ProductStats._id <$> product_stats d) →
  Forall (λ p, (String.length (ProductStats._id p) ≤ 15)%nat) (product_stats d) →
  ∃ b, (load_stats_from_mongodb w).1 = inr (Some b) ∧
    product_ids b = (λ p, ProductStats._id p +:+ "...") <$> top_products b ∧
    NoDup (product_ids b).
Proof.
  intros Hd Hnd Hlen. destruct (load_stats_returns w d Hd) as [b Hb].
  exists b. split; [done|].
  assert (product_ids b = (λ p, ProductStats._id p +:+ "...") <$> top_products b)
    as Hids.
  { unfold product_ids. apply list_fmap_ext. intros _ p Hp%list_elem_of_lookup_2.
    simpl. rewrite substring_0_all; [done|].
    rewrite Forall_forall in Hlen. by apply Hlen, (top_products_subseteq w d b). }
  split; [done|]. rewrite Hids.
  rewrite (list_fmap_compose ProductStats._id (λ s, s +:+ "...")).
  apply NoDup_fmap_2; [|by eapply top_products_NoDup_ids].
  intros s1 s2 Heq. by apply string_app_inv_tail in Heq.
Qed.

Lemma product_ids_NoDup_witness :
  ∃ b, (load_stats_from_mongodb (world_of sample_database)).1 = inr (Some b) ∧
    product_ids b = (λ p, ProductStats._id p +:+ "...") <$> top_products b ∧
    NoDup (product_ids b).
Proof.
  apply (product_ids_NoDup (world_of sample_database) sample_database).
  - reflexivity.
  - apply (bool_decide_unpack _). vm_compute. exact I.
  - repeat constructor; simpl; lia.
Defined.

(** ** The users tab *)

Lemma dict_sum_singleton k v : dict_sum {[ k := v ]} = v.
Proof. unfold dict_sum. rewrite map_to_list_singleton. simpl. lia. Qed.

Lemma dict_sum_insert (m : gmap string Z) k v :
  m !! k = None → dict_sum (<[k := v]> m) = v + dict_sum m.
Proof.
  intros Hk. unfold dict_sum. by rewrite map_to_list_insert.
Qed.

(** The three counters count the rows that have a review count. *)
Lemma rows_in_total rows :
  rows_in Casual rows + rows_in Regular rows + rows_in Power rows =
    Z.of_nat (length (filter (λ u, is_Some (UserStats.review_count u)) rows)).
Proof.
  unfold rows_in. induction rows as [|u rows IH]; [done|].
  rewrite !filter_cons. destruct (UserStats.review_count u) as [n|]; simpl.
  - destruct (decide (is_Some (Some n))) as [_|Hn]; [|exfalso; eauto].
    destruct (segment_of n); repeat case_decide; simplify_eq; simpl in *; lia.
  - destruct (decide (is_Some (@None Z))) as [[? [=]]|_].
    repeat case_decide; simplify_eq; simpl in *; lia.
Qed.

(** X14: the divisor of the segment percentages (line 712) is the number of
    user summaries that have a review count, or 1 when there is none: it is
    never 0. *)
Theorem total_users_positive w d :
  store w = Some d →
  ∃ b, (load_stats_from_mongodb w).1 = inr (Some b) ∧
    0 < total_users b ∧
    total_users b =
      Z.max 1 (Z.of_nat (length
        (filter (λ u, is_Some (UserStats.review_count u)) (user_stats d)))).
Proof.
  intros Hd.
  destruct (load_stats_returns w d Hd) as [b Hb].
  exists b. split; [done|].
  assert (dict_sum (user_segments b) =
    Z.of_nat (length (filter (λ u, is_Some (UserStats.review_count u)) (user_stats d))))
    as Hsum.
  { rewrite <-rows_in_total. rewrite (load_user_segments w d b Hd Hb).
    rewrite !dict_sum_insert by by simplify_map_eq.
    rewrite dict_sum_singleton. unfold rows_in.
    rewrite (list_filter_iff _ _ _ (λ u, lte_5_Casual (UserStats.review_count u))).
    rewrite (list_filter_iff _ _ _ (λ u, gt_5_lte_50_Regular (UserStats.review_count u))).
    rewrite (list_filter_iff _ _ _ (λ u, gt_50_Power (UserStats.review_count u))).
    lia. }
  unfold total_users. rewrite Hsum.
  destruct (Z.ltb_spec 0 (Z.of_nat (length
    (filter (λ u, is_Some (UserStats.review_count u)) (user_stats d))))); lia.
Qed.

Lemma total_users_positive_witness :
  ∃ b, (load_stats_from_mongodb (world_of sample_database)).1 = inr (Some b) ∧
    0 < total_users b ∧
    total_users b =
      Z.max 1 (Z.of_nat (length
        (filter (λ u, is_Some (UserStats.review_count u))
           (user_stats sample_database)))).
Proof.
  apply (total_users_positive (world_of sample_database) sample_database).
  reflexivity.
Defined.

(** ** Loading the data in [main] *)

Lemma connect_mongodb_errors w :
  errors (connect_mongodb w).2 =
    errors w ++ match try_raises w with
                | Some e => ["MongoDB connection failed: " +:+ e]
                | None => []
                end.
Proof.
  unfold connect_mongodb, connect_mongodb_try, imports, load_dotenv,
    environ_get, MongoClient, client_getitem, st_error, try_raises.
  cbv [mbind M_bind mret M_ret].
  destruct (import_error w) as [e|]; [done|]. cbn.
  destruct ((environ w ∪ dotenv w) !! "MONGODB_URI") as [uri|];
    [|cbn; by rewrite (right_id_L [] (++))].
  destruct uri as [|c uri]; cbn; [by rewrite (right_id_L [] (++))|].
  destruct (client_error w _) as [e|]; cbn; [done|].
  destruct (name_error w _) as [e|]; cbn; [done|]. by rewrite (right_id_L [] (++)).
Qed.

Lemma connect_mongodb_Some_errors w db :
  (connect_mongodb w).1 = Some db → errors (connect_mongodb w).2 = errors w.
Proof.
  unfold connect_mongodb, connect_mongodb_try, imports, load_dotenv,
    environ_get, MongoClient, client_getitem, st_error.
  cbv [mbind M_bind mret M_ret].
  destruct (import_error w) as [e|]; [done|]. cbn.
  destruct (truthy_str _); [|done]. cbn.
  destruct (client_error w _) as [e|]; [done|]. cbn.
  by destruct (name_error w _) as [e|].
Qed.

(** X15: without a store handle [main] gets no bundle and ends by showing
    the could-not-connect message (lines 241-243).  Before it comes the
    connection-failed message with the exception of the try block when a
    step of the block raised, and nothing when the block returned None for
    want of a URI; the deployment is untouched. *)
Theorem main_load_unavailable w :
  unavailable w →
  (main_load w).1 = inr None ∧
  server (main_load w).2 = server w ∧
  errors (main_load w).2 =
    errors w ++
    match try_raises w with
    | Some e => ["MongoDB connection failed: " +:+ e]
    | None => []
    end ++ ["❌ Could not connect to MongoDB. Check your .env file."].
Proof.
  intros Hu.
  pose proof (load_stats_not_available w Hu) as Hl.
  pose proof (load_stats_world w) as Hw.
  pose proof (connect_mongodb_world w) as (Hs & _).
  pose proof (connect_mongodb_errors w) as He.
  unfold main_load, st_error. cbv [mbind E_bind mret E_ret returns].
  destruct (load_stats_from_mongodb w) as [r w'']; simpl in *. subst r w''.
  simpl. split; [done|]. split; [done|].
  by rewrite He, <-(assoc_L (++)).
Qed.

Lemma main_load_unavailable_witness :
  (main_load world_without_driver).1 = inr None ∧
  server (main_load world_without_driver).2 = server world_without_driver ∧
  errors (main_load world_without_driver).2 =
    errors world_without_driver ++
    match try_raises world_without_driver with
    | Some e => ["MongoDB connection failed: " +:+ e]
    | None => []
    end ++ ["❌ Could not connect to MongoDB. Check your .env file."].
Proof.
  apply (main_load_unavailable world_without_driver).
  left. by eexists.
Defined.

(** X16: with a store behind the handle, one that answers, [main] gets the
    bundle of [load_stats_from_mongodb] and shows no error. *)
Theorem main_load_available w d :
  store w = Some d →
  (main_load w).1 = (load_stats_from_mongodb w).1 ∧
  (∃ b, (main_load w).1 = inr (Some b)) ∧
  errors (main_load w).2 = errors w.
Proof.
  intros Hd. destruct (load_stats_returns w d Hd) as [b Hb].
  apply store_connect in Hd as (db & w' & Hc & Hu & ->).
  pose proof (connect_mongodb_Some_errors w db) as He.
  pose proof (load_stats_world w) as Hw.
  unfold main_load. cbv [mbind E_bind mret E_ret].
  destruct (load_stats_from_mongodb w) as [[e|[b'|]] w''] eqn:Hl;
    simpl in *; try done.
  rewrite Hc in He, Hw. simpl in *. subst w''. split; [done|]. split; [eauto|].
  by apply He.
Qed.

Lemma main_load_available_witness :
  (main_load (world_of sample_database)).1 =
    (load_stats_from_mongodb (world_of sample_database)).1 ∧
  (∃ b, (main_load (world_of sample_database)).1 = inr (Some b)) ∧
  errors (main_load (world_of sample_database)).2 =
    errors (world_of sample_database).
Proof.
  apply (main_load_available (world_of sample_database) sample_database).
  reflexivity.
Defined.

(** X18: with a handle for a deployment that cannot be reached, the
    exception of the first query leaves [load_stats_from_mongodb] and then
    [main]: [main] gets neither a bundle nor None, and shows no message of
    its own. *)
Theorem main_load_raises w db e :
  (connect_mongodb w).1 = Some db → unreachable w = Some e →
  (main_load w).1 = inl e ∧ errors (main_load w).2 = errors w.
Proof.
  intros Hc Hu.
  pose proof (load_stats_raises w db e Hc Hu) as Hl.
  pose proof (load_stats_world w) as Hw.
  pose proof (connect_mongodb_Some_errors w db Hc) as He.
  unfold main_load. cbv [mbind E_bind mret E_ret].
  destruct (load_stats_from_mongodb w) as [r w'']; simpl in *. by subst r w''.
Qed.

Lemma main_load_raises_witness :
  (main_load world_unreachable).1 =
    inl "localhost:27017: [Errno 111] Connection refused" ∧
  errors (main_load world_unreachable).2 = errors world_unreachable.
Proof.
  apply (main_load_raises world_unreachable {| db_name := "amazon_movies" |});
    reflexivity.
Defined.

(** ** The keys of the per-score mappings *)

Lemma dict_grouped_is_Some {D A} str_num `{!Inj (=) (=) (str_id str_num)}
    (key : D → option Z) (acc : list D → A) docs k :
  is_Some (dict (by_id str_num (sort_id (group key acc docs))) !! k) ↔
  ∃ s, k = str_id str_num s ∧ ∃ x, x ∈ docs ∧ key x = s.
Proof.
  unfold is_Some. setoid_rewrite (dict_grouped_lookup str_num). split.
  - intros (v & s & -> & Hx & _). eauto.
  - intros (s & -> & Hx). eauto.
Qed.

(** X8: [word_count_by_rating] has the keys of [rating_counts], every key
    of [helpful_by_rating] is one of them, and with reviews in the store
    [rating_percentages] has them all. *)
Theorem score_keys w d :
  store w = Some d →
  ∃ b, (load_stats_from_mongodb w).1 = inr (Some b) ∧
    dom (word_count_by_rating b) = dom (rating_counts b) ∧
    dom (helpful_by_rating b) ⊆ dom (rating_counts b) ∧
    (reviews d ≠ [] → dom (rating_percentages b) = dom (rating_counts b)).
Proof.
  intros Hd. destruct (load_stats_returns w d Hd) as [b Hb].
  exists b. split; [done|].
  pose proof (load_rating_percentages w d b Hd Hb) as Hp.
  pose proof (load_total_reviews w d b Hd Hb) as Ht.
  rewrite (load_word_count_by_rating w d b Hd Hb),
    (load_helpful_by_rating w d b Hd Hb), (load_rating_counts w d b Hd Hb) in *.
  unfold wc_pipeline, help_pipeline, rating_pipeline in *. repeat split.
  - apply set_eq. intros k. by rewrite !elem_of_dom, !(dict_grouped_is_Some _).
  - intros k. rewrite !elem_of_dom, !(dict_grouped_is_Some _).
    intros (s & -> & x & [_ Hx]%list_elem_of_filter & Hs). eauto.
  - intros Hne. rewrite Hp.
    assert (0 < total_reviews b) as ->%Z.ltb_lt.
    { rewrite Ht. destruct (reviews d); [done|]. simpl. lia. }
    by rewrite dom_fmap_L.
Qed.

Lemma score_keys_witness :
  ∃ b, (load_stats_from_mongodb (world_of sample_database)).1 = inr (Some b) ∧
    dom (word_count_by_rating b) = dom (rating_counts b) ∧
    dom (helpful_by_rating b) ⊆ dom (rating_counts b) ∧
    (reviews sample_database ≠ [] →
     dom (rating_percentages b) = dom (rating_counts b)).
Proof.
  apply (score_keys (world_of sample_database) sample_database).
  reflexivity.
Defined.

(** ** The counts by year *)

Lemma Zsum_group_counts_filter {D} (key : D → option Z) (P : option Z → bool)
    (docs : list D) (ks : list (option Z)) :
  NoDup ks → (∀ x, x ∈ docs → key x ∈ ks) →
  Zsum ((λ k, sum1 (filter (λ x, key x = k) docs)) <$> filter (λ k, P k = true) ks) =
  Z.of_nat (length (filter (λ x, P (key x) = true) docs)).
Proof.
  intros Hnd Hks.
  rewrite <-(group_counts_total key (filter (λ x, P (key x) = true) docs)
               (filter (λ k, P k = true) ks)).
  - f_equal. apply list_fmap_ext. intros _ k [Hk _]%list_elem_of_lookup_2%list_elem_of_filter.
    unfold sum1. do 2 f_equal. rewrite list_filter_filter.
    apply list_filter_iff. intros x. split; [|tauto]. intros <-. done.
  - by apply NoDup_filter.
  - intros x [HP Hx]%list_elem_of_filter. apply list_elem_of_filter. auto.
Qed.

Lemma filter_fmap {A B} (f : A → B) (P : B → Prop) `{∀ y, Decision (P y)}
    (l : list A) :
  filter P (f <$> l) = f <$> filter (λ x, P (f x)) l.
Proof.
  induction l as [|x l IH]; [done|].
  rewrite fmap_cons, !filter_cons.
  destruct (decide (P (f x))); by rewrite IH.
Qed.

(** X5: the counts of [yearly_data] add up to the number of reviews whose
    year is neither null nor 0. *)
Theorem yearly_counts_total w d :
  store w = Some d →
  ∃ b, (load_stats_from_mongodb w).1 = inr (Some b) ∧
    Zsum (Yearly.count <$> (map_to_list (yearly_data b)).*2) =
      Z.of_nat (length (filter (λ r, truthy (Reviews.year r) = true) (reviews d))).
Proof.
  intros Hd. destruct (load_stats_returns w d Hd) as [b Hb].
  exists b. split; [done|].
  rewrite (load_yearly_data w d b Hd Hb).
  rewrite dict_to_list by apply (NoDup_by_id _), yearly_rows_NoDup.
  rewrite by_id_values. unfold yearly_pipeline.
  rewrite sort_id_Permutation. unfold group.
  rewrite filter_fmap, <-!list_fmap_compose.
  rewrite <-(Zsum_group_counts_filter Reviews.year truthy (reviews d)
               (remove_dups (Reviews.year <$> reviews d))).
  - done.
  - apply NoDup_remove_dups.
  - intros x Hx. apply elem_of_remove_dups, list_elem_of_fmap. eauto.
Qed.

Lemma yearly_counts_total_witness :
  ∃ b, (load_stats_from_mongodb (world_of sample_database)).1 = inr (Some b) ∧
    Zsum (Yearly.count <$> (map_to_list (yearly_data b)).*2) =
      Z.of_nat (length (filter (λ r, truthy (Reviews.year r) = true)
                          (reviews sample_database))).
Proof.
  apply (yearly_counts_total (world_of sample_database) sample_database).
  reflexivity.
Defined.

(** ** A database that does not exist *)

(** X17: when the configured database name is not one the deployment has,
    and the deployment can be reached, the handle reads as an empty database: the aggregator returns a bundle
    with zero counts and nothing in it, not None, and nothing is reported. *)
Theorem unknown_database_bundle w db :
  (connect_mongodb w).1 = Some db → unreachable w = None →
  server w !! db_name db = None →
  ∃ b, (load_stats_from_mongodb w).1 = inr (Some b) ∧
    total_reviews b = 0 ∧ unique_users b = 0 ∧ unique_products b = 0 ∧
    rating_counts b = ∅ ∧ yearly_data b = ∅ ∧ top_products b = [] ∧
    errors (load_stats_from_mongodb w).2 = errors w.
Proof.
  intros Hc Hu Hdb.
  assert (store w = Some empty_database) as Hd.
  { unfold store.
    pose proof (connect_mongodb_world w) as (Hs & _ & _ & _ & _ & _ & Hu').
    destruct (connect_mongodb w) as [o w']; simpl in *. subst o.
    rewrite Hu', Hu. simpl. unfold contents. by rewrite Hs, Hdb. }
  destruct (load_stats_returns w _ Hd) as [b Hb].
  exists b. split; [done|].
  rewrite (load_total_reviews w _ b Hd Hb), (load_unique_users w _ b Hd Hb),
    (load_unique_products w _ b Hd Hb), (load_rating_counts w _ b Hd Hb),
    (load_yearly_data w _ b Hd Hb), (load_top_products w _ b Hd Hb).
  repeat split; try done.
  rewrite load_stats_world. by apply (connect_mongodb_Some_errors w db).
Qed.

Lemma unknown_database_bundle_witness :
  ∃ b, (load_stats_from_mongodb world_misnamed).1 = inr (Some b) ∧
    total_reviews b = 0 ∧ unique_users b = 0 ∧ unique_products b = 0 ∧
    rating_counts b = ∅ ∧ yearly_data b = ∅ ∧ top_products b = [] ∧
    errors (load_stats_from_mongodb world_misnamed).2 = errors world_misnamed.
Proof.
  apply (unknown_database_bundle world_misnamed {| db_name := "movies" |});
    reflexivity.
Defined.

(** * Two invocations on the same contents *)

Global Instance bson_le_anti_symm : AntiSymm (=) bson_le.
Proof. intros [x|] [y|]; simpl; try tauto. intros. f_equal. lia. Qed.











Global Instance bson_ge_anti_symm : AntiSymm (=) (flip bson_le).
Proof. intros a b Hab Hba. by apply (anti_symm bson_le). Qed.









